(** * GHOST_WindowWayland: the Wayland window of GHOST

    A shallow embedding of [intern/ghost/intern/GHOST_WindowWayland.cpp].

    The file is an adapter between libdecor / wayland-egl and the GHOST
    event queue.  Its own state is the [window_t] record; everything else
    it does is a call on a collaborator (libdecor, wayland, the GHOST
    system, the window manager, the drawing context).  The embedding keeps
    the two apart:

    - the window object is a record threaded through a state monad;
    - every call on a collaborator is a constructor of [ExtCall], indexed
      by the C++ return type; the collaborator's answer comes from a
      [Host] instance, and the call together with its answer is appended
      to the log of the run.

    Properties of the file are then statements about the final window
    record, the returned value and the log, for every host.

    The cursor methods, [setOrder] and [surface()] only forward to the
    system or return a constant and are left out. *)

From Stdlib Require Import ZArith List Bool String Lia.
Import ListNotations.
Open Scope Z_scope.

(* ------------------------------------------------------------------ *)
(** ** Integer conversions *)

(** [int32_t(x)] and [int(x)]: reduction to the signed 32-bit range. *)
Definition int32_t (x : Z) : Z := (x + 2 ^ 31) mod 2 ^ 32 - 2 ^ 31.

(** [GHOST_TUns32(x)]: reduction to the unsigned 32-bit range. *)
Definition GHOST_TUns32 (x : Z) : Z := x mod 2 ^ 32.

(** Conversion of an integer to [bool], as in [bool b = x & MASK;]. *)
Definition to_bool (x : Z) : bool := negb (x =? 0).

(* ------------------------------------------------------------------ *)
(** ** GHOST types used by the file *)

Inductive GHOST_TSuccess : Set :=
| GHOST_kFailure
| GHOST_kSuccess.

Inductive GHOST_TWindowState : Set :=
| GHOST_kWindowStateNormal
| GHOST_kWindowStateMaximized
| GHOST_kWindowStateMinimized
| GHOST_kWindowStateFullScreen
| GHOST_kWindowStateEmbedded.

(** Modelled from the spec: the enumeration [GHOST_TDrawingContextType] is
    declared in GHOST_Types.h, which is not part of the sources at hand.
    The requested context kind is "none, or an accelerated 3D context",
    the two enumerators the switch of [newDrawingContext] handles. *)
Inductive GHOST_TDrawingContextType : Set :=
| GHOST_kDrawingContextTypeNone
| GHOST_kDrawingContextTypeOpenGL.

(** The event kinds this file creates. *)
Inductive GHOST_TEventType : Set :=
| GHOST_kEventWindowClose
| GHOST_kEventWindowActivate
| GHOST_kEventWindowDeactivate
| GHOST_kEventWindowSize.

(** The address of a [GHOST_WindowWayland] object ([this]). *)
Definition WindowId := N.

(** [new GHOST_Event(time, type, window)]. *)
Record GHOST_Event : Set := mkEvent {
  ev_time : Z;
  ev_type : GHOST_TEventType;
  ev_window : WindowId
}.

(** [GHOST_Rect], with [set(l, t, r, b)] as its constructor. *)
Record GHOST_Rect : Set := mkRect {
  m_l : Z;
  m_t : Z;
  m_r : Z;
  m_b : Z
}.

(* ------------------------------------------------------------------ *)
(** ** Native handles and libdecor data *)

(** Opaque pointers handed out by wayland and libdecor. *)
Inductive wl_surface : Set := wl_surface_at (addr : N).
Inductive wl_egl_window : Set := wl_egl_window_at (addr : N).
Inductive wl_region : Set := wl_region_at (addr : N).
Inductive libdecor_frame : Set := libdecor_frame_at (addr : N).
Inductive libdecor_state : Set := libdecor_state_at (addr : N).

(** [enum libdecor_window_state] of libdecor.h. *)
Definition LIBDECOR_WINDOW_STATE_NONE : Z := 0.
Definition LIBDECOR_WINDOW_STATE_ACTIVE : Z := 1.
Definition LIBDECOR_WINDOW_STATE_MAXIMIZED : Z := 2.
Definition LIBDECOR_WINDOW_STATE_FULLSCREEN : Z := 4.

(** A configuration descriptor.  The two libdecor getters either fill
    their out-parameters and return true, or return false. *)
Record libdecor_configuration : Set := mkConfiguration {
  conf_content_size : option (Z * Z);
  conf_window_state : option Z
}.

Definition libdecor_configuration_get_content_size
    (configuration : libdecor_configuration) : option (Z * Z) :=
  conf_content_size configuration.

Definition libdecor_configuration_get_window_state
    (configuration : libdecor_configuration) : option Z :=
  conf_window_state configuration.

(** What a [wl_display_roundtrip] makes libdecor deliver to the frame: one
    entry per invocation of a callback of [libdecor_frame_iface]. *)
Inductive Notification : Set :=
| NotifyConfigure (configuration : libdecor_configuration)
| NotifyClose
| NotifyCommit.

(* ------------------------------------------------------------------ *)
(** ** The window object *)

(** [struct window_t].  The back pointer [w] to the owning object is the
    enclosing [GHOST_WindowWayland] record. *)
Record window_t : Set := mkWindowT {
  surface : wl_surface;
  frame : libdecor_frame;
  egl_window : wl_egl_window;
  is_maximised : bool;
  is_fullscreen : bool;
  is_active : bool;
  is_dialog : bool;
  width : Z;
  height : Z
}.

(** The fields of [GHOST_WindowWayland] (and of its base [GHOST_Window])
    that the file reads or writes. *)
Record GHOST_WindowWayland : Set := mkWindow {
  this : WindowId;
  w : window_t;
  title : string;
  m_wantStereoVisual : bool
}.

(** The drawing contexts [newDrawingContext] constructs. *)
Inductive GHOST_Context : Set :=
| GHOST_ContextNone (stereoVisual : bool)
| GHOST_ContextEGL (stereoVisual : bool)
                   (nativeWindow : wl_egl_window)
                   (contextProfileMask : Z)
                   (contextMajorVersion contextMinorVersion : Z)
                   (contextFlags contextResetNotificationStrategy : Z)
                   (api : Z).

Definition EGL_CONTEXT_OPENGL_CORE_PROFILE_BIT : Z := 1.
Definition EGL_OPENGL_API : Z := 12450.

(** Compile-time configuration: the [GHOST_OPENGL_ALPHA] switch and the
    two EGL macros passed to the context. *)
Record BuildConfig : Set := mkBuild {
  GHOST_OPENGL_ALPHA : bool;
  GHOST_OPENGL_EGL_CONTEXT_FLAGS : Z;
  GHOST_OPENGL_EGL_RESET_NOTIFICATION_STRATEGY : Z
}.

(* ------------------------------------------------------------------ *)
(** ** Calls on collaborators *)

(** One constructor per function of another component that the file
    calls; the index is the type of the value the call returns. *)
Inductive ExtCall : Type -> Type :=
(* wayland-client, wayland-egl *)
| wl_compositor_create_surface : ExtCall wl_surface
| wl_compositor_create_region : ExtCall wl_region
| wl_region_add (region : wl_region) (x y width height : Z) : ExtCall unit
| wl_region_destroy (region : wl_region) : ExtCall unit
| wl_surface_set_opaque_region (s : wl_surface) (region : wl_region)
    : ExtCall unit
| wl_surface_set_user_data (s : wl_surface) (data : WindowId) : ExtCall unit
| wl_surface_destroy (s : wl_surface) : ExtCall unit
| wl_egl_window_create (s : wl_surface) (width height : Z)
    : ExtCall wl_egl_window
| wl_egl_window_resize (e : wl_egl_window) (width height dx dy : Z)
    : ExtCall unit
| wl_egl_window_destroy (e : wl_egl_window) : ExtCall unit
| wl_display_roundtrip : ExtCall (list Notification)
(* libdecor *)
| libdecor_decorate (s : wl_surface) (data : WindowId)
    : ExtCall libdecor_frame
| libdecor_frame_map (f : libdecor_frame) : ExtCall unit
| libdecor_frame_set_parent (f parent : libdecor_frame) : ExtCall unit
| libdecor_frame_set_app_id (f : libdecor_frame) (app_id : string)
    : ExtCall unit
| libdecor_frame_set_title (f : libdecor_frame) (title : string)
    : ExtCall unit
| libdecor_frame_set_maximized (f : libdecor_frame) : ExtCall unit
| libdecor_frame_unset_maximized (f : libdecor_frame) : ExtCall unit
| libdecor_frame_set_minimized (f : libdecor_frame) : ExtCall unit
| libdecor_frame_set_fullscreen (f : libdecor_frame) : ExtCall unit
| libdecor_frame_unset_fullscreen (f : libdecor_frame) : ExtCall unit
| libdecor_state_new (width height : Z) : ExtCall libdecor_state
| libdecor_frame_commit (f : libdecor_frame) (state : libdecor_state)
                        (configuration : libdecor_configuration)
    : ExtCall unit
| libdecor_state_free (state : libdecor_state) : ExtCall unit
| libdecor_frame_unref (f : libdecor_frame) : ExtCall unit
(* GHOST_System, GHOST_WindowManager *)
| getMilliSeconds : ExtCall Z
| pushEvent (event : GHOST_Event) : ExtCall GHOST_TSuccess
| setActiveWindow (window : WindowId) : ExtCall GHOST_TSuccess
| setWindowInactive (window : WindowId) : ExtCall unit
(* GHOST_Window, GHOST_Context *)
| swapBuffers (window : WindowId) : ExtCall GHOST_TSuccess
| setDrawingContextType (window : WindowId)
                        (type : GHOST_TDrawingContextType)
    : ExtCall GHOST_TSuccess
| releaseNativeHandles (window : WindowId) : ExtCall unit
| initializeDrawingContext (context : GHOST_Context)
    : ExtCall GHOST_TSuccess
| GHOST_PRINT (message : string) : ExtCall unit.

(** A call that was made, with the answer it got. *)
Inductive Logged : Type :=
| Did {X : Type} (c : ExtCall X) (answer : X).

(** The collaborators as one interface: a host answers every call and
    moves to its next state. *)
Class Host (H : Type) : Type :=
  respond : forall X : Type, ExtCall X -> H -> X * H.

Arguments respond {H _ X} _ _.

(* ------------------------------------------------------------------ *)
(** ** Reading the log *)

(** The events handed to [pushEvent], in order. *)
Fixpoint pushed_events (log : list Logged) : list GHOST_Event :=
  match log with
  | [] => []
  | Did c _ :: rest =>
      match c with
      | pushEvent event => event :: pushed_events rest
      | _ => pushed_events rest
      end
  end.

(** The commands sent to the decoration layer that change the state of
    the frame. *)
Inductive DecorCommand : Set :=
| SetMaximized (f : libdecor_frame)
| UnsetMaximized (f : libdecor_frame)
| SetMinimized (f : libdecor_frame)
| SetFullscreen (f : libdecor_frame)
| UnsetFullscreen (f : libdecor_frame).

Definition decor_command_of {X : Type} (c : ExtCall X) : option DecorCommand :=
  match c with
  | libdecor_frame_set_maximized f => Some (SetMaximized f)
  | libdecor_frame_unset_maximized f => Some (UnsetMaximized f)
  | libdecor_frame_set_minimized f => Some (SetMinimized f)
  | libdecor_frame_set_fullscreen f => Some (SetFullscreen f)
  | libdecor_frame_unset_fullscreen f => Some (UnsetFullscreen f)
  | _ => None
  end.

Fixpoint decor_commands (log : list Logged) : list DecorCommand :=
  match log with
  | [] => []
  | Did c _ :: rest =>
      match decor_command_of c with
      | Some d => d :: decor_commands rest
      | None => decor_commands rest
      end
  end.

(** Calls that give a native handle back: what the destructor issues. *)
Definition is_release {X : Type} (c : ExtCall X) : bool :=
  match c with
  | releaseNativeHandles _ => true
  | libdecor_frame_unref _ => true
  | wl_egl_window_destroy _ => true
  | wl_surface_destroy _ => true
  | _ => false
  end.

Fixpoint releases (log : list Logged) : list Logged :=
  match log with
  | [] => []
  | Did c a :: rest =>
      if is_release c then Did c a :: releases rest else releases rest
  end.

(** The sizes given to the native rendering surface, in order. *)
Fixpoint egl_resizes (log : list Logged) : list (Z * Z) :=
  match log with
  | [] => []
  | Did c _ :: rest =>
      match c with
      | wl_egl_window_resize _ width height _ _ =>
          (width, height) :: egl_resizes rest
      | _ => egl_resizes rest
      end
  end.

(* ------------------------------------------------------------------ *)
(** ** The monad of the embedding *)

(** The window object and the state of the host. *)
Record World (H : Type) : Type := mkWorld {
  obj : GHOST_WindowWayland;
  host : H
}.

Arguments mkWorld {H} _ _.
Arguments obj {H} _.
Arguments host {H} _.

(** A method run: from a world to a result, the next world and the log
    of the calls the run made. *)
Definition M (H A : Type) : Type := World H -> A * World H * list Logged.

Definition ret {H A : Type} (a : A) : M H A :=
  fun s => (a, s, []).

Definition bind {H A B : Type} (m : M H A) (f : A -> M H B) : M H B :=
  fun s =>
    let '(a, s1, log1) := m s in
    let '(b, s2, log2) := f a s1 in
    (b, s2, log1 ++ log2).

Notation "x <- m ;; k" := (bind m (fun x => k))
  (at level 61, m at next level, right associativity).
Notation "m ;; k" := (bind m (fun _ => k))
  (at level 61, right associativity).

(** Result, final world and log of a run. *)
Definition result {H A : Type} (r : A * World H * list Logged) : A :=
  fst (fst r).
Definition final {H A : Type} (r : A * World H * list Logged) : World H :=
  snd (fst r).
Definition log_of {H A : Type} (r : A * World H * list Logged)
    : list Logged :=
  snd r.

Section Window.

Context {H : Type} {host_H : Host H}.
Variable build : BuildConfig.

(** A call on a collaborator: ask the host, log call and answer. *)
Definition call {X : Type} (c : ExtCall X) : M H X :=
  fun s =>
    let '(x, h) := respond c (host s) in
    (x, mkWorld (obj s) h, [Did c x]).

(** [this] and [this->w]. *)
Definition get_this : M H WindowId := fun s => (this (obj s), s, []).
Definition get_w : M H window_t := fun s => (w (obj s), s, []).
Definition get_obj : M H GHOST_WindowWayland := fun s => (obj s, s, []).

Definition put_w (win : window_t) : M H unit :=
  fun s =>
    let o := obj s in
    (tt, mkWorld (mkWindow (this o) win (title o) (m_wantStereoVisual o))
                 (host s), []).

Definition put_title (t : string) : M H unit :=
  fun s =>
    let o := obj s in
    (tt, mkWorld (mkWindow (this o) (w o) t (m_wantStereoVisual o))
                 (host s), []).

(** Assignments to the fields of [window_t]. *)
Definition set_width (win : window_t) (x : Z) : window_t :=
  mkWindowT (surface win) (frame win) (egl_window win) (is_maximised win)
            (is_fullscreen win) (is_active win) (is_dialog win)
            x (height win).
Definition set_height (win : window_t) (x : Z) : window_t :=
  mkWindowT (surface win) (frame win) (egl_window win) (is_maximised win)
            (is_fullscreen win) (is_active win) (is_dialog win)
            (width win) x.
Definition set_is_maximised (win : window_t) (b : bool) : window_t :=
  mkWindowT (surface win) (frame win) (egl_window win) b
            (is_fullscreen win) (is_active win) (is_dialog win)
            (width win) (height win).
Definition set_is_fullscreen (win : window_t) (b : bool) : window_t :=
  mkWindowT (surface win) (frame win) (egl_window win) (is_maximised win)
            b (is_active win) (is_dialog win)
            (width win) (height win).
Definition set_is_active (win : window_t) (b : bool) : window_t :=
  mkWindowT (surface win) (frame win) (egl_window win) (is_maximised win)
            (is_fullscreen win) b (is_dialog win)
            (width win) (height win).
Definition set_is_dialog (win : window_t) (b : bool) : window_t :=
  mkWindowT (surface win) (frame win) (egl_window win) (is_maximised win)
            (is_fullscreen win) (is_active win) b
            (width win) (height win).
Definition set_surface (win : window_t) (s : wl_surface) : window_t :=
  mkWindowT s (frame win) (egl_window win) (is_maximised win)
            (is_fullscreen win) (is_active win) (is_dialog win)
            (width win) (height win).
Definition set_egl_window (win : window_t) (e : wl_egl_window) : window_t :=
  mkWindowT (surface win) (frame win) e (is_maximised win)
            (is_fullscreen win) (is_active win) (is_dialog win)
            (width win) (height win).
Definition set_frame (win : window_t) (f : libdecor_frame) : window_t :=
  mkWindowT (surface win) f (egl_window win) (is_maximised win)
            (is_fullscreen win) (is_active win) (is_dialog win)
            (width win) (height win).

(** [win->field = value;] *)
Definition assign {A : Type} (set : window_t -> A -> window_t) (a : A)
    : M H unit :=
  win <- get_w ;; put_w (set win a).

(* ------------------------------------------------------------------ *)
(** ** Ghost implementation: events *)

(** [GHOST_WindowWayland::setOpaque], compiled under GHOST_OPENGL_ALPHA. *)
Definition setOpaque : M H unit :=
  region <- call wl_compositor_create_region ;;
  win <- get_w ;;
  call (wl_region_add region 0 0 (width win) (height win)) ;;
  call (wl_surface_set_opaque_region (surface win) region) ;;
  call (wl_region_destroy region).

(** [m_system->pushEvent(new GHOST_Event(m_system->getMilliSeconds(),
    type, this))]: the time stamp is taken first, as the argument of
    the constructor of the event. *)
Definition push_new_event (type : GHOST_TEventType) : M H GHOST_TSuccess :=
  time <- call getMilliSeconds ;;
  self <- get_this ;;
  call (pushEvent (mkEvent time type self)).

(** [GHOST_WindowWayland::close] *)
Definition close : M H GHOST_TSuccess :=
  push_new_event GHOST_kEventWindowClose.

(** [GHOST_WindowWayland::activate] *)
Definition activate : M H GHOST_TSuccess :=
  self <- get_this ;;
  accepted <- call (setActiveWindow self) ;;
  match accepted with
  | GHOST_kFailure => ret GHOST_kFailure
  | GHOST_kSuccess => push_new_event GHOST_kEventWindowActivate
  end.

(** [GHOST_WindowWayland::deactivate] *)
Definition deactivate : M H GHOST_TSuccess :=
  self <- get_this ;;
  call (setWindowInactive self) ;;
  push_new_event GHOST_kEventWindowDeactivate.

(** [GHOST_WindowWayland::notify_size] *)
Definition notify_size : M H GHOST_TSuccess :=
  (if GHOST_OPENGL_ALPHA build then setOpaque else ret tt) ;;
  push_new_event GHOST_kEventWindowSize.

(* ------------------------------------------------------------------ *)
(** ** Wayland interface callbacks *)

(** [frame_configure(frame, configuration, data)], with [data] the
    [window_t] of the world. *)
Definition frame_configure (frame_ : libdecor_frame)
    (configuration : libdecor_configuration) : M H unit :=
  win <- get_w ;;
  let '(width_, height_) :=
    match libdecor_configuration_get_content_size configuration with
    | Some size => size
    | None => (width win, height win)
    end in
  assign set_width width_ ;;
  assign set_height height_ ;;
  win <- get_w ;;
  call (wl_egl_window_resize (egl_window win) (width win) (height win) 0 0) ;;
  notify_size ;;
  let window_state :=
    match libdecor_configuration_get_window_state configuration with
    | Some st => st
    | None => LIBDECOR_WINDOW_STATE_NONE
    end in
  assign set_is_maximised
         (to_bool (Z.land window_state LIBDECOR_WINDOW_STATE_MAXIMIZED)) ;;
  assign set_is_fullscreen
         (to_bool (Z.land window_state LIBDECOR_WINDOW_STATE_FULLSCREEN)) ;;
  assign set_is_active
         (to_bool (Z.land window_state LIBDECOR_WINDOW_STATE_ACTIVE)) ;;
  win <- get_w ;;
  (if is_active win then activate else deactivate) ;;
  state <- call (libdecor_state_new width_ height_) ;;
  call (libdecor_frame_commit frame_ state configuration) ;;
  call (libdecor_state_free state).

(** [frame_close(frame, data)] *)
Definition frame_close : M H unit :=
  close ;; ret tt.

(** [frame_commit(frame, data)]: swap twice. *)
Definition frame_commit : M H unit :=
  self <- get_this ;;
  call (swapBuffers self) ;;
  call (swapBuffers self) ;;
  ret tt.

(** [libdecor_frame_iface]: the callback run for a notification; libdecor
    passes the frame the table was registered for. *)
Definition libdecor_frame_iface (n : Notification) : M H unit :=
  match n with
  | NotifyConfigure configuration =>
      win <- get_w ;; frame_configure (frame win) configuration
  | NotifyClose => frame_close
  | NotifyCommit => frame_commit
  end.

(** Running the callbacks of the notifications of one round trip. *)
Fixpoint dispatch (pending : list Notification) : M H unit :=
  match pending with
  | [] => ret tt
  | n :: rest => libdecor_frame_iface n ;; dispatch rest
  end.

(** [wl_display_roundtrip(m_system->display())], callbacks included. *)
Definition roundtrip : M H unit :=
  pending <- call wl_display_roundtrip ;;
  dispatch pending.

(* ------------------------------------------------------------------ *)
(** ** Ghost implementation: title, geometry, state *)

(** [GHOST_WindowWayland::setTitle] *)
Definition setTitle (title_ : string) : M H unit :=
  win <- get_w ;;
  call (libdecor_frame_set_app_id (frame win) title_) ;;
  call (libdecor_frame_set_title (frame win) title_) ;;
  put_title title_.

(** [GHOST_WindowWayland::getTitle] *)
Definition getTitle : M H string :=
  o <- get_obj ;;
  ret (if String.eqb (title o) EmptyString then "untitled"%string
       else title o).

(** [GHOST_WindowWayland::getClientBounds] *)
Definition getClientBounds : M H GHOST_Rect :=
  win <- get_w ;;
  ret (mkRect 0 0 (width win) (height win)).

(** [GHOST_WindowWayland::getWindowBounds] *)
Definition getWindowBounds : M H GHOST_Rect :=
  getClientBounds.

(** [GHOST_WindowWayland::setClientSize] *)
Definition setClientSize (width_ height_ : Z) : M H GHOST_TSuccess :=
  win <- get_w ;;
  call (wl_egl_window_resize (egl_window win)
                             (int32_t width_) (int32_t height_) 0 0) ;;
  ret GHOST_kSuccess.

(** [GHOST_WindowWayland::setClientWidth] *)
Definition setClientWidth (width_ : Z) : M H GHOST_TSuccess :=
  win <- get_w ;;
  setClientSize width_ (GHOST_TUns32 (height win)).

(** [GHOST_WindowWayland::setClientHeight] *)
Definition setClientHeight (height_ : Z) : M H GHOST_TSuccess :=
  win <- get_w ;;
  setClientSize (GHOST_TUns32 (width win)) height_.

(** [GHOST_WindowWayland::screenToClient]: the pair of out-parameters. *)
Definition screenToClient (inX inY : Z) : M H (Z * Z) :=
  ret (inX, inY).

(** [GHOST_WindowWayland::clientToScreen] *)
Definition clientToScreen (inX inY : Z) : M H (Z * Z) :=
  ret (inX, inY).

(** [GHOST_WindowWayland::getState] *)
Definition getState : M H GHOST_TWindowState :=
  win <- get_w ;;
  if is_fullscreen win then ret GHOST_kWindowStateFullScreen
  else if is_maximised win then ret GHOST_kWindowStateMaximized
  else ret GHOST_kWindowStateNormal.

(** [GHOST_WindowWayland::setState] *)
Definition setState (state : GHOST_TWindowState) : M H GHOST_TSuccess :=
  win <- get_w ;;
  match state with
  | GHOST_kWindowStateNormal =>
      current <- getState ;;
      match current with
      | GHOST_kWindowStateMaximized =>
          call (libdecor_frame_unset_maximized (frame win))
      | GHOST_kWindowStateFullScreen =>
          call (libdecor_frame_unset_fullscreen (frame win))
      | _ => ret tt
      end ;;
      ret GHOST_kSuccess
  | GHOST_kWindowStateMaximized =>
      call (libdecor_frame_set_maximized (frame win)) ;;
      ret GHOST_kSuccess
  | GHOST_kWindowStateMinimized =>
      call (libdecor_frame_set_minimized (frame win)) ;;
      ret GHOST_kSuccess
  | GHOST_kWindowStateFullScreen =>
      call (libdecor_frame_set_fullscreen (frame win)) ;;
      ret GHOST_kSuccess
  | GHOST_kWindowStateEmbedded =>
      ret GHOST_kFailure
  end.

(** [GHOST_WindowWayland::invalidate] *)
Definition invalidate : M H GHOST_TSuccess := ret GHOST_kSuccess.

(** [GHOST_WindowWayland::beginFullScreen] *)
Definition beginFullScreen : M H GHOST_TSuccess :=
  win <- get_w ;;
  call (libdecor_frame_set_fullscreen (frame win)) ;;
  ret GHOST_kSuccess.

(** [GHOST_WindowWayland::endFullScreen] *)
Definition endFullScreen : M H GHOST_TSuccess :=
  win <- get_w ;;
  call (libdecor_frame_unset_fullscreen (frame win)) ;;
  ret GHOST_kSuccess.

(** [GHOST_WindowWayland::isDialog] *)
Definition isDialog : M H bool :=
  win <- get_w ;; ret (is_dialog win).

(* ------------------------------------------------------------------ *)
(** ** Drawing context *)

(** [GHOST_WindowWayland::newDrawingContext]: [None] is [nullptr]. *)
Definition newDrawingContext (type : GHOST_TDrawingContextType)
    : M H (option GHOST_Context) :=
  o <- get_obj ;;
  let context :=
    match type with
    | GHOST_kDrawingContextTypeNone =>
        GHOST_ContextNone (m_wantStereoVisual o)
    | GHOST_kDrawingContextTypeOpenGL =>
        GHOST_ContextEGL (m_wantStereoVisual o)
                         (egl_window (w o))
                         EGL_CONTEXT_OPENGL_CORE_PROFILE_BIT
                         3
                         3
                         (GHOST_OPENGL_EGL_CONTEXT_FLAGS build)
                         (GHOST_OPENGL_EGL_RESET_NOTIFICATION_STRATEGY build)
                         EGL_OPENGL_API
    end in
  initialized <- call (initializeDrawingContext context) ;;
  match initialized with
  | GHOST_kSuccess => ret (Some context)
  | GHOST_kFailure => ret None
  end.

(* ------------------------------------------------------------------ *)
(** ** Construction and destruction *)

(** The body of the constructor, run on the object whose [window_t] was
    just allocated. *)
Definition construct (title_ : string) (width_ height_ : Z)
    (parentWindow : option GHOST_WindowWayland)
    (type : GHOST_TDrawingContextType) (is_dialog_ : bool) : M H unit :=
  assign set_width (int32_t width_) ;;
  assign set_height (int32_t height_) ;;
  assign set_is_dialog is_dialog_ ;;
  s <- call wl_compositor_create_surface ;;
  assign set_surface s ;;
  e <- call (wl_egl_window_create s (int32_t width_) (int32_t height_)) ;;
  assign set_egl_window e ;;
  self <- get_this ;;
  call (wl_surface_set_user_data s self) ;;
  f <- call (libdecor_decorate s self) ;;
  assign set_frame f ;;
  call (libdecor_frame_map f) ;;
  match parentWindow with
  | Some parent => call (libdecor_frame_set_parent f (frame (w parent)))
  | None => ret tt
  end ;;
  roundtrip ;;
  roundtrip ;;
  roundtrip ;;
  (if GHOST_OPENGL_ALPHA build then setOpaque else ret tt) ;;
  setTitle title_ ;;
  created <- call (setDrawingContextType self type) ;;
  match created with
  | GHOST_kFailure => call (GHOST_PRINT "Failed to create EGL context")
  | GHOST_kSuccess => ret tt
  end.

(** [GHOST_WindowWayland::GHOST_WindowWayland].  [self] is the address of
    the new object and [fresh] the content of the [window_t] that
    [new window_t] returns, which the constructor overwrites only in
    part.  [left] and [top] are unnamed in the source; [state] and
    [exclusive] go to the base constructor only, which also stores
    [stereoVisual]. *)
Definition GHOST_WindowWayland_new (self : WindowId) (fresh : window_t)
    (title_ : string) (left top width_ height_ : Z)
    (state : GHOST_TWindowState)
    (parentWindow : option GHOST_WindowWayland)
    (type : GHOST_TDrawingContextType)
    (is_dialog_ stereoVisual exclusive : bool) (h : H)
    : unit * World H * list Logged :=
  construct title_ width_ height_ parentWindow type is_dialog_
            (mkWorld (mkWindow self fresh EmptyString stereoVisual) h).

(** [GHOST_WindowWayland::~GHOST_WindowWayland]: the object is gone after
    the run, the host and the log remain. *)
Definition GHOST_WindowWayland_delete (s : World H) : H * list Logged :=
  let run :=
    (self <- get_this ;;
     call (releaseNativeHandles self) ;;
     win <- get_w ;;
     call (libdecor_frame_unref (frame win)) ;;
     call (wl_egl_window_destroy (egl_window win)) ;;
     call (wl_surface_destroy (surface win))) s in
  (host (final run), log_of run).

End Window.

(* ------------------------------------------------------------------ *)
(** ** More readings of the log *)

(** The answers the window manager gave to [setActiveWindow]. *)
Definition activation_answer (l : Logged) : list GHOST_TSuccess :=
  match l with
  | Did c a =>
      match c in ExtCall T return T -> list GHOST_TSuccess with
      | setActiveWindow _ => fun accepted => [accepted]
      | _ => fun _ => []
      end a
  end.

Definition activation_answers (log : list Logged) : list GHOST_TSuccess :=
  flat_map activation_answer log.

(** The calls on the window manager, each with the window it was made
    for: [setActiveWindow] with its answer, and [setWindowInactive]. *)
Inductive ManagerCall : Set :=
| AskedActive (window : WindowId) (accepted : GHOST_TSuccess)
| ToldInactive (window : WindowId).

Definition manager_call_of (l : Logged) : list ManagerCall :=
  match l with
  | Did c a =>
      match c in ExtCall T return T -> list ManagerCall with
      | setActiveWindow window => fun accepted => [AskedActive window accepted]
      | setWindowInactive window => fun _ => [ToldInactive window]
      | _ => fun _ => []
      end a
  end.

Definition manager_calls (log : list Logged) : list ManagerCall :=
  flat_map manager_call_of log.

(** The notifications the round trips of a run delivered. *)
Definition delivery (l : Logged) : list Notification :=
  match l with
  | Did c a =>
      match c in ExtCall T return T -> list Notification with
      | wl_display_roundtrip => fun pending => pending
      | _ => fun _ => []
      end a
  end.

Definition delivered (log : list Logged) : list Notification :=
  flat_map delivery log.

(** A notification that brings no content size. *)
Definition lacks_size (n : Notification) : bool :=
  match n with
  | NotifyConfigure configuration =>
      match libdecor_configuration_get_content_size configuration with
      | Some _ => false
      | None => true
      end
  | NotifyClose => true
  | NotifyCommit => true
  end.

(** The drawing context of the kind asked for. *)
Definition context_of_type (type : GHOST_TDrawingContextType)
    (context : GHOST_Context) : bool :=
  match type, context with
  | GHOST_kDrawingContextTypeNone, GHOST_ContextNone _ => true
  | GHOST_kDrawingContextTypeOpenGL, GHOST_ContextEGL _ _ _ _ _ _ _ _ => true
  | _, _ => false
  end.

(* ------------------------------------------------------------------ *)
(** ** A scripted host

    A concrete host for running the embedding: a clock that ticks at each
    reading, a counter for fresh addresses, a window manager that makes
    a window active only when it is on its list, an inbox with the
    notifications of the coming round trips, and a switch for the
    outcome of the initialization of a drawing context. *)

Record Script : Set := mkScript {
  clock : Z;
  next_addr : N;
  managed : list WindowId;
  active_window : option WindowId;
  inbox : list (list Notification);
  context_ok : bool
}.

Definition tick (h : Script) : Script :=
  mkScript (clock h + 1) (next_addr h) (managed h) (active_window h)
           (inbox h) (context_ok h).

Definition fresh_addr (h : Script) : Script :=
  mkScript (clock h) (next_addr h + 1) (managed h) (active_window h)
           (inbox h) (context_ok h).

Definition set_active (h : Script) (a : option WindowId) : Script :=
  mkScript (clock h) (next_addr h) (managed h) a (inbox h) (context_ok h).

Definition next_inbox (h : Script) : Script :=
  mkScript (clock h) (next_addr h) (managed h) (active_window h)
           (tl (inbox h)) (context_ok h).

Definition success_if (b : bool) : GHOST_TSuccess :=
  if b then GHOST_kSuccess else GHOST_kFailure.

Definition script_respond (X : Type) (c : ExtCall X) (h : Script)
    : X * Script :=
  match c in ExtCall T return T * Script with
  | wl_compositor_create_surface =>
      (wl_surface_at (next_addr h), fresh_addr h)
  | wl_compositor_create_region =>
      (wl_region_at (next_addr h), fresh_addr h)
  | wl_region_add _ _ _ _ _ => (tt, h)
  | wl_region_destroy _ => (tt, h)
  | wl_surface_set_opaque_region _ _ => (tt, h)
  | wl_surface_set_user_data _ _ => (tt, h)
  | wl_surface_destroy _ => (tt, h)
  | wl_egl_window_create _ _ _ =>
      (wl_egl_window_at (next_addr h), fresh_addr h)
  | wl_egl_window_resize _ _ _ _ _ => (tt, h)
  | wl_egl_window_destroy _ => (tt, h)
  | wl_display_roundtrip => (hd [] (inbox h), next_inbox h)
  | libdecor_decorate _ _ =>
      (libdecor_frame_at (next_addr h), fresh_addr h)
  | libdecor_frame_map _ => (tt, h)
  | libdecor_frame_set_parent _ _ => (tt, h)
  | libdecor_frame_set_app_id _ _ => (tt, h)
  | libdecor_frame_set_title _ _ => (tt, h)
  | libdecor_frame_set_maximized _ => (tt, h)
  | libdecor_frame_unset_maximized _ => (tt, h)
  | libdecor_frame_set_minimized _ => (tt, h)
  | libdecor_frame_set_fullscreen _ => (tt, h)
  | libdecor_frame_unset_fullscreen _ => (tt, h)
  | libdecor_state_new _ _ =>
      (libdecor_state_at (next_addr h), fresh_addr h)
  | libdecor_frame_commit _ _ _ => (tt, h)
  | libdecor_state_free _ => (tt, h)
  | libdecor_frame_unref _ => (tt, h)
  | getMilliSeconds => (clock h, tick h)
  | pushEvent _ => (GHOST_kSuccess, h)
  | setActiveWindow window =>
      if existsb (N.eqb window) (managed h)
      then (GHOST_kSuccess, set_active h (Some window))
      else (GHOST_kFailure, h)
  | setWindowInactive window =>
      (tt, match active_window h with
           | Some a => if N.eqb a window then set_active h None else h
           | None => h
           end)
  | swapBuffers _ => (GHOST_kSuccess, h)
  | setDrawingContextType _ type =>
      (match type with
       | GHOST_kDrawingContextTypeNone => GHOST_kSuccess
       | GHOST_kDrawingContextTypeOpenGL => success_if (context_ok h)
       end, h)
  | releaseNativeHandles _ => (tt, h)
  | initializeDrawingContext _ => (success_if (context_ok h), h)
  | GHOST_PRINT _ => (tt, h)
  end.

#[export] Instance script_host : Host Script := script_respond.

(** A build without GHOST_OPENGL_ALPHA. *)
Definition plain_build : BuildConfig := mkBuild false 0 0.

(** A window record as [new window_t] may return it. *)
Definition blank_window_t : window_t :=
  mkWindowT (wl_surface_at 0) (libdecor_frame_at 0) (wl_egl_window_at 0)
            false false false false 0 0.

(** A quiet host whose window manager knows the windows of [known]. *)
Definition quiet_host (known : list WindowId) : Script :=
  mkScript 1000 16 known None [] true.

(** A host whose first round trip delivers [pending]. *)
Definition host_with_inbox (known : list WindowId)
    (pending : list Notification) : Script :=
  mkScript 1000 16 known None [pending] true.

(** An 800x600 window at address 1 with the given flags, on a host
    whose window manager knows the windows of [known]. *)
Definition sample_world (known : list WindowId)
    (maximised fullscreen active : bool) : World Script :=
  mkWorld
    (mkWindow 1%N
       (mkWindowT (wl_surface_at 2) (libdecor_frame_at 3)
                  (wl_egl_window_at 4) maximised fullscreen active false
                  800 600)
       "Blender" false)
    (quiet_host known).

(* ------------------------------------------------------------------ *)
(** ** Shapes of logs

    The logs the methods of the file leave, as functions of the answers
    of the host.  The lemmas on runs below prove that these are the
    logs. *)

(** Taking the time and pushing an event of the given type. *)
Definition event_log (time : Z) (type : GHOST_TEventType)
    (self : WindowId) (pushed : GHOST_TSuccess) : list Logged :=
  [Did getMilliSeconds time;
   Did (pushEvent (mkEvent time type self)) pushed].

(** [setOpaque], when compiled in. *)
Definition opaque_log (enabled : bool) (region : wl_region)
    (win : window_t) : list Logged :=
  if enabled
  then [Did wl_compositor_create_region region;
        Did (wl_region_add region 0 0 (width win) (height win)) tt;
        Did (wl_surface_set_opaque_region (surface win) region) tt;
        Did (wl_region_destroy region) tt]
  else [].

(** [activate()] with the answer of the window manager. *)
Definition activate_log (self : WindowId) (accepted : GHOST_TSuccess)
    (time : Z) (pushed : GHOST_TSuccess) : list Logged :=
  Did (setActiveWindow self) accepted ::
  match accepted with
  | GHOST_kFailure => []
  | GHOST_kSuccess => event_log time GHOST_kEventWindowActivate self pushed
  end.

(** [deactivate()]. *)
Definition deactivate_log (self : WindowId) (time : Z)
    (pushed : GHOST_TSuccess) : list Logged :=
  Did (setWindowInactive self) tt ::
  event_log time GHOST_kEventWindowDeactivate self pushed.

(** The size and the window state a configuration leads to. *)
Definition adopted_size (win : window_t)
    (configuration : libdecor_configuration) : Z * Z :=
  match libdecor_configuration_get_content_size configuration with
  | Some size => size
  | None => (width win, height win)
  end.

Definition adopted_state (configuration : libdecor_configuration) : Z :=
  match libdecor_configuration_get_window_state configuration with
  | Some st => st
  | None => LIBDECOR_WINDOW_STATE_NONE
  end.

Definition adopted_active (configuration : libdecor_configuration) : bool :=
  to_bool (Z.land (adopted_state configuration)
                  LIBDECOR_WINDOW_STATE_ACTIVE).

(** The [window_t] after [frame_configure]. *)
Definition configured (win : window_t)
    (configuration : libdecor_configuration) : window_t :=
  mkWindowT (surface win) (frame win) (egl_window win)
            (to_bool (Z.land (adopted_state configuration)
                             LIBDECOR_WINDOW_STATE_MAXIMIZED))
            (to_bool (Z.land (adopted_state configuration)
                             LIBDECOR_WINDOW_STATE_FULLSCREEN))
            (adopted_active configuration)
            (is_dialog win)
            (fst (adopted_size win configuration))
            (snd (adopted_size win configuration)).

(** The object with another [window_t]. *)
Definition with_w (o : GHOST_WindowWayland) (win : window_t)
    : GHOST_WindowWayland :=
  mkWindow (this o) win (title o) (m_wantStereoVisual o).

(** The log of [frame_configure], given the answers of the host. *)
Definition configure_log (build : BuildConfig) (self : WindowId) (frame_ : libdecor_frame)
    (configuration : libdecor_configuration) (after : window_t)
    (region : wl_region) (time : Z) (pushed accepted : GHOST_TSuccess)
    (atime : Z) (apushed : GHOST_TSuccess) (state : libdecor_state)
    : list Logged :=
  Did (wl_egl_window_resize (egl_window after)
                            (width after) (height after) 0 0) tt
  :: opaque_log (GHOST_OPENGL_ALPHA build) region after
  ++ event_log time GHOST_kEventWindowSize self pushed
  ++ (if is_active after
      then activate_log self accepted atime apushed
      else deactivate_log self atime apushed)
  ++ [Did (libdecor_state_new (width after) (height after)) state;
      Did (libdecor_frame_commit frame_ state configuration) tt;
      Did (libdecor_state_free state) tt].

(** Width and height as the window stores them. *)
Definition size_of {H : Type} (s : World H) : Z * Z :=
  (width (w (obj s)), height (w (obj s))).

(** A method that leaves the stored size alone in every run in which
    the round trips deliver only notifications without a size. *)
Definition keeps_size {H A : Type} (m : M H A) : Prop :=
  forall s : World H,
    forallb lacks_size (delivered (log_of (m s))) = true ->
    size_of (final (m s)) = size_of s.

(* ------------------------------------------------------------------ *)
(** ** Sequences of notifications *)

(** The [window_t] after the callback of one notification, and after
    the callbacks of a sequence of them. *)
Definition notified (win : window_t) (n : Notification) : window_t :=
  match n with
  | NotifyConfigure configuration => configured win configuration
  | NotifyClose => win
  | NotifyCommit => win
  end.

Definition notified_all (pending : list Notification) (win : window_t)
    : window_t :=
  fold_left notified pending win.

Definition is_configure (n : Notification) : bool :=
  match n with NotifyConfigure _ => true | _ => false end.

Definition is_close (n : Notification) : bool :=
  match n with NotifyClose => true | _ => false end.

Definition is_commit (n : Notification) : bool :=
  match n with NotifyCommit => true | _ => false end.

(** How many elements of a list pass a test. *)
Definition countb {A : Type} (p : A -> bool) (l : list A) : nat :=
  List.length (filter p l).

Definition GHOST_TEventType_eqb (a b : GHOST_TEventType) : bool :=
  match a, b with
  | GHOST_kEventWindowClose, GHOST_kEventWindowClose => true
  | GHOST_kEventWindowActivate, GHOST_kEventWindowActivate => true
  | GHOST_kEventWindowDeactivate, GHOST_kEventWindowDeactivate => true
  | GHOST_kEventWindowSize, GHOST_kEventWindowSize => true
  | _, _ => false
  end.

Definition has_type (type : GHOST_TEventType) (event : GHOST_Event) : bool :=
  GHOST_TEventType_eqb type (ev_type event).

Definition is_success (r : GHOST_TSuccess) : bool :=
  match r with GHOST_kSuccess => true | GHOST_kFailure => false end.

(* ------------------------------------------------------------------ *)
(** ** Readings of the log for resources *)

(** The windows whose buffers were swapped. *)
Definition swap_of (l : Logged) : list WindowId :=
  match l with
  | Did c _ =>
      match c with
      | swapBuffers window => [window]
      | _ => []
      end
  end.

Definition swaps (log : list Logged) : list WindowId :=
  flat_map swap_of log.

(** The libdecor states created, committed and freed. *)
Definition state_new_of (l : Logged) : list (Z * Z * libdecor_state) :=
  match l with
  | Did c a =>
      match c in ExtCall T return T -> list (Z * Z * libdecor_state) with
      | libdecor_state_new width_ height_ =>
          fun state => [(width_, height_, state)]
      | _ => fun _ => []
      end a
  end.

Definition states_new (log : list Logged) : list (Z * Z * libdecor_state) :=
  flat_map state_new_of log.

Definition commit_of (l : Logged)
    : list (libdecor_frame * libdecor_state * libdecor_configuration) :=
  match l with
  | Did c _ =>
      match c with
      | libdecor_frame_commit f state configuration =>
          [(f, state, configuration)]
      | _ => []
      end
  end.

Definition commits (log : list Logged)
    : list (libdecor_frame * libdecor_state * libdecor_configuration) :=
  flat_map commit_of log.

Definition state_free_of (l : Logged) : list libdecor_state :=
  match l with
  | Did c _ =>
      match c with
      | libdecor_state_free state => [state]
      | _ => []
      end
  end.

Definition states_freed (log : list Logged) : list libdecor_state :=
  flat_map state_free_of log.

(** The regions created, filled, set as opaque region and destroyed. *)
Definition region_create_of (l : Logged) : list wl_region :=
  match l with
  | Did c a =>
      match c in ExtCall T return T -> list wl_region with
      | wl_compositor_create_region => fun region => [region]
      | _ => fun _ => []
      end a
  end.

Definition regions_created (log : list Logged) : list wl_region :=
  flat_map region_create_of log.





Definition region_destroy_of (l : Logged) : list wl_region :=
  match l with
  | Did c _ =>
      match c with
      | wl_region_destroy region => [region]
      | _ => []
      end
  end.

Definition regions_destroyed (log : list Logged) : list wl_region :=
  flat_map region_destroy_of log.

(** The native handles a run obtained. *)
Inductive Created : Set :=
| CreatedSurface (s : wl_surface)
| CreatedEglWindow (s : wl_surface) (width_ height_ : Z)
                   (e : wl_egl_window)
| CreatedFrame (s : wl_surface) (data : WindowId) (f : libdecor_frame).

Definition creation_of (l : Logged) : list Created :=
  match l with
  | Did c a =>
      match c in ExtCall T return T -> list Created with
      | wl_compositor_create_surface => fun s => [CreatedSurface s]
      | wl_egl_window_create s width_ height_ =>
          fun e => [CreatedEglWindow s width_ height_ e]
      | libdecor_decorate s data => fun f => [CreatedFrame s data f]
      | _ => fun _ => []
      end a
  end.

Definition creations (log : list Logged) : list Created :=
  flat_map creation_of log.

(** The titles and application ids given to libdecor. *)
Definition title_of (l : Logged) : list (libdecor_frame * string) :=
  match l with
  | Did c _ =>
      match c with
      | libdecor_frame_set_title f t => [(f, t)]
      | _ => []
      end
  end.

Definition titles_set (log : list Logged) : list (libdecor_frame * string) :=
  flat_map title_of log.

Definition app_id_of (l : Logged) : list (libdecor_frame * string) :=
  match l with
  | Did c _ =>
      match c with
      | libdecor_frame_set_app_id f t => [(f, t)]
      | _ => []
      end
  end.

Definition app_ids_set (log : list Logged)
    : list (libdecor_frame * string) :=
  flat_map app_id_of log.

(** The parents given to frames. *)
Definition parent_of (l : Logged) : list (libdecor_frame * libdecor_frame) :=
  match l with
  | Did c _ =>
      match c with
      | libdecor_frame_set_parent f parent => [(f, parent)]
      | _ => []
      end
  end.

Definition parents_set (log : list Logged)
    : list (libdecor_frame * libdecor_frame) :=
  flat_map parent_of log.

(** A log as the callbacks leave it: no native handle is obtained or
    given back, no round trip is made, no title or parent is set, and
    every libdecor state and every region that is created is also
    freed. *)
Definition callback_log (log : list Logged) : Prop :=
  creations log = []
  /\ releases log = []
  /\ delivered log = []
  /\ parents_set log = []
  /\ titles_set log = []
  /\ app_ids_set log = []
  /\ states_freed log = map snd (states_new log)
  /\ regions_destroyed log = regions_created log.

(** The log of the callback of one notification, for a window at [self]
    whose [window_t] is [win] when the callback starts. *)
Definition notification_log (build : BuildConfig) (self : WindowId)
    (win : window_t) (n : Notification) (log : list Logged) : Prop :=
  match n with
  | NotifyConfigure configuration =>
      exists region time pushed accepted atime apushed state,
        log = configure_log build self (frame win) configuration
                (configured win configuration)
                region time pushed accepted atime apushed state
  | NotifyClose =>
      exists time pushed,
        log = event_log time GHOST_kEventWindowClose self pushed
  | NotifyCommit =>
      exists first second,
        log = [Did (swapBuffers self) first; Did (swapBuffers self) second]
  end.

(** The log of the callbacks of a sequence of notifications. *)
Fixpoint notifications_log (build : BuildConfig) (self : WindowId)
    (win : window_t) (pending : list Notification) (log : list Logged)
    : Prop :=
  match pending with
  | [] => log = []
  | n :: rest =>
      exists here after,
        log = here ++ after
        /\ notification_log build self win n here
        /\ notifications_log build self (notified win n) rest after
  end.

(** The log of the constructor, given the answers of the host: the
    handles [s], [e] and [f], the notifications [p1], [p2], [p3] of the
    three round trips with the logs [l1], [l2], [l3] of their callbacks,
    and the outcome [created] of [setDrawingContextType]. *)
Definition construct_log (build : BuildConfig) (self : WindowId)
    (title_ : string) (width_ height_ : Z)
    (parentWindow : option GHOST_WindowWayland)
    (type : GHOST_TDrawingContextType)
    (s : wl_surface) (e : wl_egl_window) (f : libdecor_frame)
    (p1 p2 p3 : list Notification) (l1 l2 l3 : list Logged)
    (region : wl_region) (after : window_t) (created : GHOST_TSuccess)
    : list Logged :=
  [Did wl_compositor_create_surface s;
   Did (wl_egl_window_create s (int32_t width_) (int32_t height_)) e;
   Did (wl_surface_set_user_data s self) tt;
   Did (libdecor_decorate s self) f;
   Did (libdecor_frame_map f) tt]
  ++ match parentWindow with
     | Some parent =>
         [Did (libdecor_frame_set_parent f (frame (w parent))) tt]
     | None => []
     end
  ++ (Did wl_display_roundtrip p1 :: l1)
  ++ (Did wl_display_roundtrip p2 :: l2)
  ++ (Did wl_display_roundtrip p3 :: l3)
  ++ opaque_log (GHOST_OPENGL_ALPHA build) region after
  ++ [Did (libdecor_frame_set_app_id f title_) tt;
      Did (libdecor_frame_set_title f title_) tt;
      Did (setDrawingContextType self type) created]
  ++ match created with
     | GHOST_kFailure =>
         [Did (GHOST_PRINT "Failed to create EGL context") tt]
     | GHOST_kSuccess => []
     end.

(** The account of the callbacks of [pending]: events by kind, requests
    to the window manager, buffer swaps and libdecor states. *)
Definition accounted (self : WindowId) (pending : list Notification)
    (log : list Logged) : Prop :=
  let events := pushed_events log in
  countb (has_type GHOST_kEventWindowSize) events
  = countb is_configure pending
  /\ countb (has_type GHOST_kEventWindowClose) events
     = countb is_close pending
  /\ (List.length (activation_answers log)
      + countb (has_type GHOST_kEventWindowDeactivate) events
      = countb is_configure pending)%nat
  /\ countb (has_type GHOST_kEventWindowActivate) events
     = countb is_success (activation_answers log)
  /\ Forall (fun event => ev_window event = self) events
  /\ swaps log = repeat self (2 * countb is_commit pending)
  /\ List.length (states_new log) = countb is_configure pending.

(* ------------------------------------------------------------------ *)
(** * Properties *)

(** ** Runs of the monad *)

Section Runs.

Context {H : Type} {host_H : Host H}.

Lemma result_ret {A : Type} (a : A) (s : World H) :
  result (ret a s) = a.
Proof. reflexivity. Qed.

Lemma final_ret {A : Type} (a : A) (s : World H) :
  final (ret a s) = s.
Proof. reflexivity. Qed.

Lemma log_ret {A : Type} (a : A) (s : World H) :
  log_of (ret a s) = [].
Proof. reflexivity. Qed.

Lemma result_bind {A B : Type} (m : M H A) (f : A -> M H B) (s : World H) :
  result (bind m f s) = result (f (result (m s)) (final (m s))).
Proof.
  unfold bind, result, final.
  destruct (m s) as [[a s1] l1]; cbn.
  destruct (f a s1) as [[b s2] l2]; reflexivity.
Qed.

Lemma final_bind {A B : Type} (m : M H A) (f : A -> M H B) (s : World H) :
  final (bind m f s) = final (f (result (m s)) (final (m s))).
Proof.
  unfold bind, result, final.
  destruct (m s) as [[a s1] l1]; cbn.
  destruct (f a s1) as [[b s2] l2]; reflexivity.
Qed.

Lemma log_bind {A B : Type} (m : M H A) (f : A -> M H B) (s : World H) :
  log_of (bind m f s)
  = log_of (m s) ++ log_of (f (result (m s)) (final (m s))).
Proof.
  unfold bind, result, final, log_of.
  destruct (m s) as [[a s1] l1]; cbn.
  destruct (f a s1) as [[b s2] l2]; reflexivity.
Qed.

Lemma result_call {X : Type} (c : ExtCall X) (s : World H) :
  result (call c s) = fst (respond c (host s)).
Proof.
  unfold call, result. destruct (respond c (host s)); reflexivity.
Qed.

Lemma final_call {X : Type} (c : ExtCall X) (s : World H) :
  final (call c s) = mkWorld (obj s) (snd (respond c (host s))).
Proof.
  unfold call, final. destruct (respond c (host s)); reflexivity.
Qed.

Lemma log_call {X : Type} (c : ExtCall X) (s : World H) :
  log_of (call c s) = [Did c (fst (respond c (host s)))].
Proof.
  unfold call, log_of. destruct (respond c (host s)); reflexivity.
Qed.

Lemma log_assign {A : Type} (set : window_t -> A -> window_t) (a : A)
    (s : World H) :
  log_of (assign set a s) = [].
Proof. reflexivity. Qed.

Lemma w_assign {A : Type} (set : window_t -> A -> window_t) (a : A)
    (s : World H) :
  w (obj (final (assign set a s))) = set (w (obj s)) a.
Proof. reflexivity. Qed.

End Runs.

Create Rewrite HintDb run.
#[export] Hint Rewrite
  @result_ret @final_ret @log_ret @result_bind @final_bind @log_bind
  @result_call @final_call @log_call : run.

(** Unfolds the run of a method into the runs of its statements. *)
Ltac run := autorewrite with run; cbn [obj host fst snd app].

(** ** The log readers distribute over concatenation *)

Lemma pushed_events_app (l1 l2 : list Logged) :
  pushed_events (l1 ++ l2) = pushed_events l1 ++ pushed_events l2.
Proof.
  induction l1 as [| [X c a] l1 IH]; cbn; [reflexivity |].
  destruct c; cbn; rewrite IH; reflexivity.
Qed.

Lemma decor_commands_app (l1 l2 : list Logged) :
  decor_commands (l1 ++ l2) = decor_commands l1 ++ decor_commands l2.
Proof.
  induction l1 as [| [X c a] l1 IH]; cbn; [reflexivity |].
  destruct (decor_command_of c); cbn; rewrite IH; reflexivity.
Qed.

Lemma releases_app (l1 l2 : list Logged) :
  releases (l1 ++ l2) = releases l1 ++ releases l2.
Proof.
  induction l1 as [| [X c a] l1 IH]; cbn; [reflexivity |].
  destruct (is_release c); cbn; rewrite IH; reflexivity.
Qed.

Lemma egl_resizes_app (l1 l2 : list Logged) :
  egl_resizes (l1 ++ l2) = egl_resizes l1 ++ egl_resizes l2.
Proof.
  induction l1 as [| [X c a] l1 IH]; cbn; [reflexivity |].
  destruct c; cbn; rewrite IH; reflexivity.
Qed.

Lemma activation_answers_app (l1 l2 : list Logged) :
  activation_answers (l1 ++ l2)
  = activation_answers l1 ++ activation_answers l2.
Proof. apply flat_map_app. Qed.

Lemma delivered_app (l1 l2 : list Logged) :
  delivered (l1 ++ l2) = delivered l1 ++ delivered l2.
Proof. apply flat_map_app. Qed.

Create Rewrite HintDb readers.
#[export] Hint Rewrite
  pushed_events_app decor_commands_app releases_app egl_resizes_app
  activation_answers_app delivered_app : readers.

(** ** Runs of the event methods *)

Section EventRuns.

Context {H : Type} {host_H : Host H}.
Variable build : BuildConfig.

(** Asks the host for the answer to the next call of the goal. *)
Ltac answer :=
  match goal with
  | |- context [respond ?c ?h] =>
      let x := fresh "x" in
      let h' := fresh "h" in
      destruct (respond c h) as [x h']; try destruct x; cbn
  end.

Lemma push_new_event_run (type : GHOST_TEventType) (s : World H) :
  exists time pushed h,
    push_new_event type s
    = (pushed, mkWorld (obj s) h,
       event_log time type (this (obj s)) pushed).
Proof.
  unfold push_new_event, bind, call, get_this; cbn.
  destruct (respond getMilliSeconds (host s)) as [time h1]; cbn.
  destruct (respond (pushEvent (mkEvent time type (this (obj s)))) h1)
    as [pushed h2]; cbn.
  exists time, pushed, h2. reflexivity.
Qed.

Lemma close_run (s : World H) :
  exists time pushed h,
    close s
    = (pushed, mkWorld (obj s) h,
       event_log time GHOST_kEventWindowClose (this (obj s)) pushed).
Proof. apply push_new_event_run. Qed.

Lemma activate_run (s : World H) :
  exists accepted time pushed h,
    activate s
    = (match accepted with
       | GHOST_kFailure => GHOST_kFailure
       | GHOST_kSuccess => pushed
       end,
       mkWorld (obj s) h,
       activate_log (this (obj s)) accepted time pushed).
Proof.
  unfold activate, bind at 1 2, call, get_this; cbn.
  destruct (respond (setActiveWindow (this (obj s))) (host s))
    as [accepted h1]; cbn.
  destruct accepted.
  - exists GHOST_kFailure, 0, GHOST_kFailure, h1. reflexivity.
  - destruct (push_new_event_run GHOST_kEventWindowActivate
                (mkWorld (obj s) h1)) as (time & pushed & h2 & E).
    rewrite E. exists GHOST_kSuccess, time, pushed, h2. reflexivity.
Qed.

Lemma deactivate_run (s : World H) :
  exists time pushed h,
    deactivate s
    = (pushed, mkWorld (obj s) h,
       deactivate_log (this (obj s)) time pushed).
Proof.
  unfold deactivate, bind at 1 2, call, get_this; cbn.
  destruct (respond (setWindowInactive (this (obj s))) (host s))
    as [[] h1]; cbn.
  destruct (push_new_event_run GHOST_kEventWindowDeactivate
              (mkWorld (obj s) h1)) as (time & pushed & h2 & E).
  rewrite E. exists time, pushed, h2. reflexivity.
Qed.

Lemma setOpaque_run (s : World H) :
  exists region h,
    setOpaque s
    = (tt, mkWorld (obj s) h, opaque_log true region (w (obj s))).
Proof.
  unfold setOpaque, bind, call, get_w; cbn.
  destruct (respond wl_compositor_create_region (host s)) as [region h1].
  cbn. repeat answer.
  exists region. eexists. reflexivity.
Qed.

Lemma notify_size_run (s : World H) :
  exists region time pushed h,
    notify_size build s
    = (pushed, mkWorld (obj s) h,
       opaque_log (GHOST_OPENGL_ALPHA build) region (w (obj s))
       ++ event_log time GHOST_kEventWindowSize (this (obj s)) pushed).
Proof.
  unfold notify_size, bind at 1.
  destruct (GHOST_OPENGL_ALPHA build).
  - destruct (setOpaque_run s) as (region & h1 & E). rewrite E.
    destruct (push_new_event_run GHOST_kEventWindowSize
                (mkWorld (obj s) h1)) as (time & pushed & h2 & E2).
    rewrite E2. exists region, time, pushed, h2. reflexivity.
  - cbn.
    destruct (push_new_event_run GHOST_kEventWindowSize s)
      as (time & pushed & h2 & E2).
    rewrite E2. exists (wl_region_at 0), time, pushed, h2. reflexivity.
Qed.

End EventRuns.

(** ** Runs of the callbacks *)

Section CallbackRuns.

Context {H : Type} {host_H : Host H}.
Variable build : BuildConfig.

Lemma frame_configure_run (frame_ : libdecor_frame)
    (configuration : libdecor_configuration) (s : World H) :
  exists region time pushed accepted atime apushed state h,
    frame_configure build frame_ configuration s
    = (tt,
       mkWorld (with_w (obj s) (configured (w (obj s)) configuration)) h,
       configure_log build (this (obj s)) frame_ configuration
                     (configured (w (obj s)) configuration)
                     region time pushed accepted atime apushed state).
Proof.
  unfold frame_configure, configure_log, configured, adopted_active,
    adopted_size.
  fold (adopted_state configuration).
  generalize (adopted_state configuration) as st; intros st.
  destruct s as [[self [sf fr eg bm bf ba bd w0 h0] ttl stereo] hst].
  assert (body : forall cw ch : Z,
    exists region time pushed accepted atime apushed state h,
      (assign set_width cw;;
       assign set_height ch;;
       win <- get_w;;
       call (wl_egl_window_resize (egl_window win) (width win) (height win)
                                  0 0);;
       notify_size build;;
       assign set_is_maximised
         (to_bool (Z.land st LIBDECOR_WINDOW_STATE_MAXIMIZED));;
       assign set_is_fullscreen
         (to_bool (Z.land st LIBDECOR_WINDOW_STATE_FULLSCREEN));;
       assign set_is_active
         (to_bool (Z.land st LIBDECOR_WINDOW_STATE_ACTIVE));;
       win0 <- get_w;;
       (if is_active win0 then activate else deactivate);;
       state0 <- call (libdecor_state_new cw ch);;
       call (libdecor_frame_commit frame_ state0 configuration);;
       call (libdecor_state_free state0))
        (mkWorld (mkWindow self (mkWindowT sf fr eg bm bf ba bd w0 h0)
                           ttl stereo) hst)
      = (tt,
         mkWorld
           (mkWindow self
              (mkWindowT sf fr eg
                 (to_bool (Z.land st LIBDECOR_WINDOW_STATE_MAXIMIZED))
                 (to_bool (Z.land st LIBDECOR_WINDOW_STATE_FULLSCREEN))
                 (to_bool (Z.land st LIBDECOR_WINDOW_STATE_ACTIVE))
                 bd cw ch)
              ttl stereo) h,
         Did (wl_egl_window_resize eg cw ch 0 0) tt
         :: opaque_log (GHOST_OPENGL_ALPHA build) region
              (mkWindowT sf fr eg bm bf ba bd cw ch)
         ++ event_log time GHOST_kEventWindowSize self pushed
         ++ (if to_bool (Z.land st LIBDECOR_WINDOW_STATE_ACTIVE)
             then activate_log self accepted atime apushed
             else deactivate_log self atime apushed)
         ++ [Did (libdecor_state_new cw ch) state;
             Did (libdecor_frame_commit frame_ state configuration) tt;
             Did (libdecor_state_free state) tt])).
  { intros cw ch.
    unfold bind, assign, get_w, put_w;
      cbn -[notify_size activate deactivate Z.land].
    unfold call at 1; cbn -[notify_size activate deactivate Z.land].
    destruct (respond (wl_egl_window_resize eg cw ch 0 0) hst) as [[] h1];
      cbn -[notify_size activate deactivate Z.land].
    match goal with
    | |- context [notify_size build ?S] =>
        destruct (notify_size_run build S)
          as (region & time & pushed & h2 & E);
        rewrite E; clear E
    end.
    cbn -[notify_size activate deactivate Z.land].
    destruct (to_bool (Z.land st LIBDECOR_WINDOW_STATE_ACTIVE)).
    - match goal with
      | |- context [activate ?S] =>
          destruct (activate_run S)
            as (accepted & atime & apushed & h3 & E);
          rewrite E; clear E
      end.
      cbn. unfold call; cbn.
      destruct (respond (libdecor_state_new cw ch) h3) as [state h4]; cbn.
      destruct (respond (libdecor_frame_commit frame_ state configuration)
                        h4) as [[] h5]; cbn.
      destruct (respond (libdecor_state_free state) h5) as [[] h6]; cbn.
      exists region, time, pushed, accepted, atime, apushed, state, h6.
      cbn. rewrite <- !app_assoc. reflexivity.
    - match goal with
      | |- context [deactivate ?S] =>
          destruct (deactivate_run S) as (atime & apushed & h3 & E);
          rewrite E; clear E
      end.
      cbn. unfold call; cbn.
      destruct (respond (libdecor_state_new cw ch) h3) as [state h4]; cbn.
      destruct (respond (libdecor_frame_commit frame_ state configuration)
                        h4) as [[] h5]; cbn.
      destruct (respond (libdecor_state_free state) h5) as [[] h6]; cbn.
      exists region, time, pushed, GHOST_kFailure, atime, apushed, state, h6.
      cbn. rewrite <- !app_assoc. reflexivity. }
  destruct (libdecor_configuration_get_content_size configuration)
    as [[cw ch] |].
  - destruct (body cw ch)
      as (region & time & pushed & accepted & atime & apushed & state & h
          & E).
    exists region, time, pushed, accepted, atime, apushed, state, h.
    unfold bind at 1. cbn [get_w]. rewrite E.
    destruct (GHOST_OPENGL_ALPHA build); reflexivity.
  - destruct (body w0 h0)
      as (region & time & pushed & accepted & atime & apushed & state & h
          & E).
    exists region, time, pushed, accepted, atime, apushed, state, h.
    unfold bind at 1. cbn [get_w w obj width height]. rewrite E.
    destruct (GHOST_OPENGL_ALPHA build); reflexivity.
Qed.

End CallbackRuns.

Section MoreRuns.

Context {H : Type} {host_H : Host H}.
Variable build : BuildConfig.

Lemma frame_close_run (s : World H) :
  exists time pushed h,
    frame_close s
    = (tt, mkWorld (obj s) h,
       event_log time GHOST_kEventWindowClose (this (obj s)) pushed).
Proof.
  unfold frame_close, bind.
  destruct (close_run s) as (time & pushed & h & E). rewrite E.
  exists time, pushed, h. reflexivity.
Qed.

Lemma frame_commit_obj (s : World H) :
  obj (final (frame_commit s)) = obj s.
Proof. unfold frame_commit. run. reflexivity. Qed.

(** [setClientSize] resizes the native surface and nothing else. *)
Lemma setClientSize_run (width_ height_ : Z) (s : World H) :
  exists h,
    setClientSize width_ height_ s
    = (GHOST_kSuccess, mkWorld (obj s) h,
       [Did (wl_egl_window_resize (egl_window (w (obj s)))
                                  (int32_t width_) (int32_t height_) 0 0)
            tt]).
Proof.
  unfold setClientSize, bind, call, get_w, ret; cbn.
  destruct (respond _ (host s)) as [[] h]. exists h. reflexivity.
Qed.

(** The destructor gives back the frame, then the native surface. *)
Lemma delete_releases (s : World H) :
  releases (snd (GHOST_WindowWayland_delete s))
  = [Did (releaseNativeHandles (this (obj s))) tt;
     Did (libdecor_frame_unref (frame (w (obj s)))) tt;
     Did (wl_egl_window_destroy (egl_window (w (obj s)))) tt;
     Did (wl_surface_destroy (surface (w (obj s)))) tt].
Proof.
  unfold GHOST_WindowWayland_delete, bind, call, get_this, get_w; cbn.
  destruct (respond (releaseNativeHandles (this (obj s))) (host s))
    as [[] h1]; cbn.
  destruct (respond (libdecor_frame_unref (frame (w (obj s)))) h1)
    as [[] h2]; cbn.
  destruct (respond (wl_egl_window_destroy (egl_window (w (obj s)))) h2)
    as [[] h3]; cbn.
  destruct (respond (wl_surface_destroy (surface (w (obj s)))) h3)
    as [[] h4]; cbn.
  reflexivity.
Qed.

(** ** Methods that keep the stored size *)

Lemma keeps_size_ret {A : Type} (a : A) : keeps_size (@ret H A a).
Proof. intros s _. reflexivity. Qed.

Lemma keeps_size_bind {A B : Type} (m : M H A) (f : A -> M H B) :
  keeps_size m -> (forall a, keeps_size (f a)) -> keeps_size (bind m f).
Proof.
  intros Hm Hf s Hd.
  rewrite log_bind, delivered_app, forallb_app in Hd.
  apply andb_prop in Hd as [Hd1 Hd2].
  rewrite final_bind, (Hf _ _ Hd2). apply Hm. exact Hd1.
Qed.

Lemma keeps_size_obj {A : Type} (m : M H A) :
  (forall s, obj (final (m s)) = obj s) -> keeps_size m.
Proof. intros Hobj s _. unfold size_of. rewrite Hobj. reflexivity. Qed.

Lemma keeps_size_call {X : Type} (c : ExtCall X) : keeps_size (call c).
Proof. apply keeps_size_obj. intros s. rewrite final_call. reflexivity. Qed.

Lemma keeps_size_get_w : keeps_size (@get_w H).
Proof. intros s _. reflexivity. Qed.

Lemma keeps_size_get_this : keeps_size (@get_this H).
Proof. intros s _. reflexivity. Qed.

Lemma keeps_size_put_title (t : string) : keeps_size (@put_title H t).
Proof. intros s _. reflexivity. Qed.

Lemma keeps_size_assign {A : Type} (set : window_t -> A -> window_t)
    (a : A) :
  (forall win, width (set win a) = width win) ->
  (forall win, height (set win a) = height win) ->
  keeps_size (@assign H A set a).
Proof.
  intros Hw Hh s _. unfold size_of. rewrite w_assign, Hw, Hh. reflexivity.
Qed.

Lemma keeps_size_setOpaque : keeps_size (@setOpaque H host_H).
Proof.
  apply keeps_size_obj. intros s.
  destruct (setOpaque_run s) as (region & h & E). rewrite E. reflexivity.
Qed.

Lemma keeps_size_setTitle (t : string) : keeps_size (setTitle t).
Proof.
  unfold setTitle.
  repeat (apply keeps_size_bind; [ | intro ]);
    auto using keeps_size_get_w, keeps_size_call, keeps_size_put_title.
Qed.

Lemma keeps_size_frame_configure (frame_ : libdecor_frame)
    (configuration : libdecor_configuration) :
  libdecor_configuration_get_content_size configuration = None ->
  keeps_size (frame_configure build frame_ configuration).
Proof.
  intros Hnone s _.
  destruct (frame_configure_run build frame_ configuration s)
    as (region & time & pushed & accepted & atime & apushed & state & h
        & E).
  rewrite E. unfold size_of, final, configured, adopted_size; cbn.
  rewrite Hnone. reflexivity.
Qed.

Lemma keeps_size_iface (n : Notification) :
  lacks_size n = true -> keeps_size (libdecor_frame_iface build n).
Proof.
  destruct n as [configuration | |]; cbn [lacks_size libdecor_frame_iface].
  - intros Hn.
    apply keeps_size_bind; [apply keeps_size_get_w | intros win].
    apply keeps_size_frame_configure.
    destruct (libdecor_configuration_get_content_size configuration);
      [discriminate | reflexivity].
  - intros _. apply keeps_size_obj. intros s.
    destruct (frame_close_run s) as (time & pushed & h & E).
    rewrite E. reflexivity.
  - intros _. apply keeps_size_obj. apply frame_commit_obj.
Qed.

Lemma keeps_size_dispatch (pending : list Notification) :
  forallb lacks_size pending = true -> keeps_size (dispatch build pending).
Proof.
  induction pending as [| n rest IH]; cbn [forallb dispatch]; intros Hall.
  - apply keeps_size_ret.
  - apply andb_prop in Hall as [Hn Hrest].
    apply keeps_size_bind; [apply keeps_size_iface; exact Hn | intros _].
    apply IH. exact Hrest.
Qed.

Lemma keeps_size_roundtrip : keeps_size (roundtrip build).
Proof.
  intros s Hd. unfold roundtrip in *.
  rewrite log_bind, log_call, result_call, final_call in Hd.
  cbn [app delivered flat_map delivery] in Hd.
  rewrite forallb_app in Hd.
  apply andb_prop in Hd as [Hpending Hrest].
  rewrite final_bind, result_call, final_call.
  rewrite (keeps_size_dispatch _ Hpending).
  - reflexivity.
  - exact Hrest.
Qed.

(** The constructor stores the size it is given, and the round trips
    keep it when they bring no size. *)
Lemma construct_size (title_ : string) (width_ height_ : Z)
    (parentWindow : option GHOST_WindowWayland)
    (type : GHOST_TDrawingContextType) (is_dialog_ : bool) (s : World H) :
  forallb lacks_size
    (delivered
       (log_of (construct build title_ width_ height_ parentWindow type
                          is_dialog_ s))) = true ->
  size_of (final (construct build title_ width_ height_ parentWindow type
                            is_dialog_ s))
  = (int32_t width_, int32_t height_).
Proof.
  unfold construct. intros Hd.
  rewrite log_bind, log_assign, log_bind, log_assign in Hd.
  cbn [app] in Hd.
  rewrite final_bind, final_bind.
  match goal with
  | |- size_of (final (?rest ?s0)) = _ =>
      assert (Hrest : keeps_size rest)
  end.
  { repeat first
      [ apply keeps_size_assign; intros []; reflexivity
      | apply keeps_size_call
      | apply keeps_size_get_this
      | apply keeps_size_roundtrip
      | apply keeps_size_setTitle
      | apply keeps_size_ret
      | apply keeps_size_setOpaque
      | apply keeps_size_bind; [ | intro ]
      | match goal with
        | |- keeps_size (match ?x with _ => _ end) => destruct x
        end ]. }
  rewrite (Hrest _ Hd). reflexivity.
Qed.

End MoreRuns.

(* ------------------------------------------------------------------ *)
(** * The claims *)

(** ** Geometry *)

(** C1.  The reported geometry does not follow an explicit resize call.
    On a window of 800x600, [setClientSize(1024, 768)] succeeds and resizes
    the native surface to 1024x768, yet the bounds query that follows
    still answers (0, 0, 800, 600): the call never stores the size it was
    given, unlike [frame_configure] and the constructor, which store the
    size before they hand it to the native surface.  The same holds for
    [setClientWidth] and [setClientHeight], which in addition pass the
    stale other dimension on: after [setClientWidth(1024)] the call
    [setClientHeight(768)] resizes the surface to 800x768. *)
Theorem C1_bounds_ignore_explicit_resize :
  let s := sample_world [] false false false in
  let resized := setClientSize 1024 768 s in
  result resized = GHOST_kSuccess
  /\ egl_resizes (log_of resized) = [(1024, 768)]
  /\ result (getClientBounds (final resized)) = mkRect 0 0 800 600
  /\ result (getWindowBounds (final resized)) = mkRect 0 0 800 600
  /\ (let widened := setClientWidth 1024 s in
      let heightened := setClientHeight 768 (final widened) in
      egl_resizes (log_of widened ++ log_of heightened)
      = [(1024, 600); (800, 768)]
      /\ result (getClientBounds (final heightened)) = mkRect 0 0 800 600).
Proof. cbv zeta. repeat split; reflexivity. Qed.

Section Claims.

Context {H : Type} {host_H : Host H}.
Variable build : BuildConfig.

(** In every world, an explicit resize leaves the window object, and
    with it the answer of the bounds queries, as it was. *)
Lemma setClientSize_keeps_bounds (width_ height_ : Z) (s : World H) :
  obj (final (setClientSize width_ height_ s)) = obj s
  /\ result (getClientBounds (final (setClientSize width_ height_ s)))
     = result (getClientBounds s)
  /\ egl_resizes (log_of (setClientSize width_ height_ s))
     = [(int32_t width_, int32_t height_)].
Proof.
  destruct (setClientSize_run width_ height_ s) as (h & E).
  rewrite E. repeat split; reflexivity.
Qed.

(** The bounds are the stored size. *)
Lemma getClientBounds_size (s : World H) :
  result (getClientBounds s)
  = mkRect 0 0 (fst (size_of s)) (snd (size_of s)).
Proof. reflexivity. Qed.

(** After a configuration event the bounds are the adopted size. *)
Lemma frame_configure_bounds (frame_ : libdecor_frame)
    (configuration : libdecor_configuration) (s : World H) :
  result (getClientBounds
            (final (frame_configure build frame_ configuration s)))
  = mkRect 0 0 (fst (adopted_size (w (obj s)) configuration))
               (snd (adopted_size (w (obj s)) configuration)).
Proof.
  destruct (frame_configure_run build frame_ configuration s)
    as (region & time & pushed & accepted & atime & apushed & state & h
        & E).
  rewrite E. reflexivity.
Qed.

(** C3 (as amended).  A configuration notification without a content
    size leaves the stored width and height, and so the bounds, as they
    were.  In particular a window constructed with width 800 and height
    600, to which the round trips of the constructor brought only
    notifications without a size, answers (0, 0, 800, 600) to a bounds
    query after one more configuration notification without a size. *)
Theorem C3_configure_without_size_keeps_geometry
    (frame_ : libdecor_frame) (configuration : libdecor_configuration)
    (s : World H) :
  libdecor_configuration_get_content_size configuration = None ->
  let s' := final (frame_configure build frame_ configuration s) in
  width (w (obj s')) = width (w (obj s))
  /\ height (w (obj s')) = height (w (obj s))
  /\ result (getClientBounds s') = result (getClientBounds s)
  /\ forall self fresh title_ left top state parentWindow type
            is_dialog_ stereoVisual exclusive (h : H),
       let built :=
         GHOST_WindowWayland_new build self fresh title_ left top 800 600
           state parentWindow type is_dialog_ stereoVisual exclusive h in
       forallb lacks_size (delivered (log_of built)) = true ->
       result (getClientBounds
                 (final (frame_configure build frame_ configuration
                                         (final built))))
       = mkRect 0 0 800 600.
Proof.
  intros Hnone s'.
  assert (Hkeep : forall s0 : World H,
            size_of (final (frame_configure build frame_ configuration s0))
            = size_of s0).
  { intros s0.
    apply (keeps_size_frame_configure build frame_ configuration Hnone).
    destruct (frame_configure_run build frame_ configuration s0)
      as (region & time & pushed & accepted & atime & apushed & state & h
          & E).
    rewrite E. unfold log_of, configure_log; cbn [snd].
    destruct (GHOST_OPENGL_ALPHA build), (is_active _), accepted;
      reflexivity. }
  pose proof (Hkeep s) as Hs. unfold size_of in Hs. fold s' in Hs.
  injection Hs as Hwidth Hheight.
  repeat split.
  - exact Hwidth.
  - exact Hheight.
  - unfold s'. rewrite !getClientBounds_size, Hkeep. reflexivity.
  - intros self fresh title_ left top state parentWindow type is_dialog_
      stereoVisual exclusive h built Hquiet.
    unfold built, GHOST_WindowWayland_new in *.
    rewrite getClientBounds_size, Hkeep, (construct_size _ _ _ _ _ _ _ _ Hquiet).
    reflexivity.
Qed.

(** ** Window state *)

(** C4.  [getState] answers fullscreen whenever [is_fullscreen] is set,
    whatever [is_maximised] is, maximized when only [is_maximised] is
    set, and normal otherwise; after a configuration notification whose
    state flags give fullscreen = true and maximized = true, it answers
    fullscreen. *)
Theorem C4_getState_priority (s : World H) :
  result (getState s)
  = match is_fullscreen (w (obj s)), is_maximised (w (obj s)) with
    | true, _ => GHOST_kWindowStateFullScreen
    | false, true => GHOST_kWindowStateMaximized
    | false, false => GHOST_kWindowStateNormal
    end
  /\ forall frame_ configuration st,
       libdecor_configuration_get_window_state configuration = Some st ->
       to_bool (Z.land st LIBDECOR_WINDOW_STATE_FULLSCREEN) = true ->
       to_bool (Z.land st LIBDECOR_WINDOW_STATE_MAXIMIZED) = true ->
       result (getState (final (frame_configure build frame_ configuration
                                                s)))
       = GHOST_kWindowStateFullScreen.
Proof.
  split.
  - unfold getState, bind, get_w, ret, result; cbn.
    destruct (is_fullscreen (w (obj s))), (is_maximised (w (obj s)));
      reflexivity.
  - intros frame_ configuration st Hst Hfull _.
    destruct (frame_configure_run build frame_ configuration s)
      as (region & time & pushed & accepted & atime & apushed & state & h
          & E).
    rewrite E.
    unfold getState, bind, get_w, ret, result, final, configured,
      adopted_state; cbn [fst snd obj w with_w is_fullscreen].
    rewrite Hst, Hfull. reflexivity.
Qed.

(** C5 (as amended).  For every window whose maximized flag is set and
    whose fullscreen flag is not, a [setState] request for the normal
    state succeeds and issues exactly one call on the decoration layer,
    the maximized-unset one, and no fullscreen-unset call. *)
Theorem C5_normal_unsets_maximized (s : World H) :
  is_maximised (w (obj s)) = true ->
  is_fullscreen (w (obj s)) = false ->
  result (setState GHOST_kWindowStateNormal s) = GHOST_kSuccess
  /\ log_of (setState GHOST_kWindowStateNormal s)
     = [Did (libdecor_frame_unset_maximized (frame (w (obj s)))) tt]
  /\ decor_commands (log_of (setState GHOST_kWindowStateNormal s))
     = [UnsetMaximized (frame (w (obj s)))]
  /\ obj (final (setState GHOST_kWindowStateNormal s)) = obj s.
Proof.
  intros Hmax Hfull.
  unfold setState, getState, bind, get_w, ret, call, result, log_of, final;
    cbn.
  rewrite Hfull, Hmax; cbn.
  destruct (respond (libdecor_frame_unset_maximized (frame (w (obj s))))
                    (host s)) as [[] h].
  repeat split; reflexivity.
Qed.

(** C6.  A [setState] request for the embedded state fails, calls no
    collaborator, and leaves the window (flags, geometry, handles) and
    the host as they were. *)
Theorem C6_embedded_fails_without_effect (s : World H) :
  result (setState GHOST_kWindowStateEmbedded s) = GHOST_kFailure
  /\ final (setState GHOST_kWindowStateEmbedded s) = s
  /\ log_of (setState GHOST_kWindowStateEmbedded s) = []
  /\ decor_commands (log_of (setState GHOST_kWindowStateEmbedded s)) = [].
Proof. repeat split; reflexivity. Qed.

(** ** Events *)

(** C7.  The close notification pushes exactly one event, of the
    close-requested kind and for this window; the window object is the
    same afterwards, and none of the calls by which the destructor gives
    back the frame and the surface is made. *)
Theorem C7_close_pushes_one_event (s : World H) :
  (exists time,
     pushed_events (log_of (frame_close s))
     = [mkEvent time GHOST_kEventWindowClose (this (obj s))])
  /\ obj (final (frame_close s)) = obj s
  /\ releases (log_of (frame_close s)) = [].
Proof.
  destruct (frame_close_run s) as (time & pushed & h & E). rewrite E.
  split; [exists time; reflexivity | split; reflexivity].
Qed.

(** C10.  [activate()] asks the window manager once, and for this very
    window, whether it may become the active one.  When the window
    manager accepts, [activate()] pushes one activation event for this
    window and returns what [pushEvent] returns; when it refuses,
    [activate()] returns failure and makes no further call, so that no
    event is pushed.  [deactivate()] tells the window manager that this
    window is inactive and pushes one deactivation event for this window
    in every case. *)
Theorem C10_activate_guarded_deactivate_unconditional (s : World H) :
  let self := this (obj s) in
  let accepted := fst (respond (setActiveWindow self) (host s)) in
  manager_calls (log_of (activate s)) = [AskedActive self accepted]
  /\ activation_answers (log_of (activate s)) = [accepted]
  /\ match accepted with
     | GHOST_kFailure =>
         result (activate s) = GHOST_kFailure
         /\ log_of (activate s) = [Did (setActiveWindow self) GHOST_kFailure]
         /\ pushed_events (log_of (activate s)) = []
     | GHOST_kSuccess =>
         exists time pushed,
           log_of (activate s)
           = activate_log self GHOST_kSuccess time pushed
           /\ result (activate s) = pushed
           /\ pushed_events (log_of (activate s))
              = [mkEvent time GHOST_kEventWindowActivate self]
     end
  /\ exists time pushed,
       log_of (deactivate s) = deactivate_log self time pushed
       /\ manager_calls (log_of (deactivate s)) = [ToldInactive self]
       /\ pushed_events (log_of (deactivate s))
          = [mkEvent time GHOST_kEventWindowDeactivate self].
Proof.
  cbv zeta.
  assert (Hactivate :
    activate s
    = match fst (respond (setActiveWindow (this (obj s))) (host s)) with
      | GHOST_kFailure =>
          (GHOST_kFailure,
           mkWorld (obj s)
                   (snd (respond (setActiveWindow (this (obj s))) (host s))),
           [Did (setActiveWindow (this (obj s))) GHOST_kFailure])
      | GHOST_kSuccess =>
          let pushing :=
            push_new_event GHOST_kEventWindowActivate
              (mkWorld (obj s)
                 (snd (respond (setActiveWindow (this (obj s))) (host s))))
          in
          (result pushing, final pushing,
           Did (setActiveWindow (this (obj s))) GHOST_kSuccess
           :: log_of pushing)
      end).
  { unfold activate, bind at 1 2, call, get_this; cbn.
    destruct (respond (setActiveWindow (this (obj s))) (host s))
      as [[] h1]; cbn; [reflexivity |].
    destruct (push_new_event GHOST_kEventWindowActivate
                (mkWorld (obj s) h1)) as [[pushed s2] log2].
    reflexivity. }
  rewrite Hactivate. clear Hactivate.
  destruct (respond (setActiveWindow (this (obj s))) (host s))
    as [accepted h1]; cbn [fst snd].
  repeat split.
  - destruct accepted; [reflexivity |]. cbv zeta.
    destruct (push_new_event_run GHOST_kEventWindowActivate
                (mkWorld (obj s) h1)) as (time & pushed & h2 & E).
    rewrite E. reflexivity.
  - destruct accepted; [reflexivity |]. cbv zeta.
    destruct (push_new_event_run GHOST_kEventWindowActivate
                (mkWorld (obj s) h1)) as (time & pushed & h2 & E).
    rewrite E. reflexivity.
  - destruct accepted.
    + repeat split.
    + cbv zeta.
      destruct (push_new_event_run GHOST_kEventWindowActivate
                  (mkWorld (obj s) h1)) as (time & pushed & h2 & E).
      rewrite E. exists time, pushed. repeat split.
  - destruct (deactivate_run s) as (time & pushed & h & E).
    rewrite E. exists time, pushed. repeat split.
Qed.

(** C2 (as amended).  On every configuration notification, whatever the
    active flag was before: when the adopted state is not active, or the
    notification has no state, the window manager is told that this
    window is inactive and one deactivation event for this window is
    pushed; when the adopted state is active, the window manager is
    asked once to make this window the active one, and the activation
    event for this window is pushed if it accepts and no activation or
    deactivation event is pushed if it refuses.  No other call on the
    window manager is made, and the size event comes first in every
    case. *)
Theorem C2_configure_activation_events (frame_ : libdecor_frame)
    (configuration : libdecor_configuration) (s : World H) :
  let log := log_of (frame_configure build frame_ configuration s) in
  let self := this (obj s) in
  exists time atime,
    if adopted_active configuration
    then exists accepted,
           manager_calls log = [AskedActive self accepted]
           /\ activation_answers log = [accepted]
           /\ pushed_events log
              = mkEvent time GHOST_kEventWindowSize self
                :: match accepted with
                   | GHOST_kSuccess =>
                       [mkEvent atime GHOST_kEventWindowActivate self]
                   | GHOST_kFailure => []
                   end
    else manager_calls log = [ToldInactive self]
         /\ activation_answers log = []
         /\ pushed_events log
            = [mkEvent time GHOST_kEventWindowSize self;
               mkEvent atime GHOST_kEventWindowDeactivate self].
Proof.
  intros log self. subst log self.
  destruct (frame_configure_run build frame_ configuration s)
    as (region & time & pushed & accepted & atime & apushed & state & h
        & E).
  rewrite E. exists time, atime.
  unfold log_of, configure_log, configured; cbn [snd is_active].
  destruct (adopted_active configuration).
  - exists accepted.
    destruct (GHOST_OPENGL_ALPHA build), accepted; repeat split.
  - destruct (GHOST_OPENGL_ALPHA build); repeat split.
Qed.

(** ** Coordinates *)

(** C8.  [screenToClient] and [clientToScreen] return the coordinates
    they are given, so one after the other, in either order, gives the
    coordinates back. *)
Theorem C8_coordinate_transforms_identity (s : World H) (x y : Z) :
  result (screenToClient x y s) = (x, y)
  /\ result (clientToScreen x y s) = (x, y)
  /\ (let '(cx, cy) := result (screenToClient x y s) in
      result (clientToScreen cx cy (final (screenToClient x y s))))
     = (x, y)
  /\ (let '(sx, sy) := result (clientToScreen x y s) in
      result (screenToClient sx sy (final (clientToScreen x y s))))
     = (x, y).
Proof. repeat split; reflexivity. Qed.

(** ** Drawing context *)

(** C9.  For each requested type, [newDrawingContext] constructs the
    context of that type, runs its initialization, and returns that very
    context when the initialization reports success and the null pointer
    when it reports failure. *)
Theorem C9_newDrawingContext_result (type : GHOST_TDrawingContextType)
    (s : World H) :
  exists context initialized,
    context_of_type type context = true
    /\ log_of (newDrawingContext build type s)
       = [Did (initializeDrawingContext context) initialized]
    /\ result (newDrawingContext build type s)
       = match initialized with
         | GHOST_kSuccess => Some context
         | GHOST_kFailure => None
         end.
Proof.
  unfold newDrawingContext, bind, get_obj, call, ret, result, log_of; cbn.
  destruct type;
    match goal with
    | |- context [respond (initializeDrawingContext ?c) (host s)] =>
        exists c;
        destruct (respond (initializeDrawingContext c) (host s))
          as [initialized h];
        exists initialized; destruct initialized;
        repeat split; reflexivity
    end.
Qed.

End Claims.

(* ------------------------------------------------------------------ *)
(** * Runs on the scripted host *)

(** C2 as stated fails: a window the window manager does not know (as is
    the case for the notifications that arrive during the round trips of
    the constructor) receives a configuration notification whose state is
    active; [activate()] is refused, and the only event pushed is the
    size event. *)
Lemma C2_active_configuration_without_activation_event :
  adopted_active (mkConfiguration None (Some LIBDECOR_WINDOW_STATE_ACTIVE))
  = true
  /\ pushed_events
       (log_of (frame_configure plain_build (libdecor_frame_at 3)
                  (mkConfiguration None (Some LIBDECOR_WINDOW_STATE_ACTIVE))
                  (sample_world [] false false false)))
     = [mkEvent 1000 GHOST_kEventWindowSize 1%N].
Proof. split; reflexivity. Qed.

(** The same notification for a window the window manager knows. *)
Example configure_active_accepted :
  pushed_events
    (log_of (frame_configure plain_build (libdecor_frame_at 3)
               (mkConfiguration None (Some LIBDECOR_WINDOW_STATE_ACTIVE))
               (sample_world [1%N] false false false)))
  = [mkEvent 1000 GHOST_kEventWindowSize 1%N;
     mkEvent 1001 GHOST_kEventWindowActivate 1%N].
Proof. reflexivity. Qed.

(** A notification without state flags deactivates a window that was
    active, and one that was not. *)
Example configure_without_state_deactivates :
  forall was_active : bool,
    pushed_events
      (log_of (frame_configure plain_build (libdecor_frame_at 3)
                 (mkConfiguration (Some (1024, 768)) None)
                 (sample_world [1%N] false false was_active)))
    = [mkEvent 1000 GHOST_kEventWindowSize 1%N;
       mkEvent 1001 GHOST_kEventWindowDeactivate 1%N].
Proof. intros []; reflexivity. Qed.

(** C5 as stated fails: with both the maximized and the fullscreen flag
    set, the request for the normal state issues the fullscreen-unset
    call and no maximized-unset call. *)
Lemma C5_maximized_and_fullscreen_unsets_fullscreen :
  is_maximised (w (obj (sample_world [] true true false))) = true
  /\ decor_commands
       (log_of (setState GHOST_kWindowStateNormal
                         (sample_world [] true true false)))
     = [UnsetFullscreen (libdecor_frame_at 3)].
Proof. split; reflexivity. Qed.

(** C5 (as amended) applies to a maximized window that is not
    fullscreen. *)
Lemma C5_normal_unsets_maximized_witness :
  decor_commands
    (log_of (setState GHOST_kWindowStateNormal
                      (sample_world [] true false false)))
  = [UnsetMaximized (libdecor_frame_at 3)].
Proof.
  exact (proj1 (proj2 (proj2
           (C5_normal_unsets_maximized (sample_world [] true false false)
                                       eq_refl eq_refl)))).
Defined.

(** C3 as stated fails in its scenario: the window is constructed with
    width 800 and height 600, the first round trip of the constructor
    brings a configuration with content size 1920x1080, and a
    configuration notification without a size follows; the bounds query
    answers (0, 0, 1920, 1080). *)
Lemma C3_constructed_800x600_keeps_delivered_size :
  libdecor_configuration_get_content_size
    (mkConfiguration None (Some LIBDECOR_WINDOW_STATE_ACTIVE)) = None
  /\ result
       (getClientBounds
          (final
             (frame_configure plain_build (libdecor_frame_at 18)
                (mkConfiguration None (Some LIBDECOR_WINDOW_STATE_ACTIVE))
                (final
                   (GHOST_WindowWayland_new plain_build 1%N blank_window_t
                      "Blender" 0 0 800 600 GHOST_kWindowStateNormal None
                      GHOST_kDrawingContextTypeOpenGL false false false
                      (host_with_inbox []
                         [NotifyConfigure
                            (mkConfiguration (Some (1920, 1080))
                               (Some LIBDECOR_WINDOW_STATE_ACTIVE))]))))))
     = mkRect 0 0 1920 1080.
Proof. split; reflexivity. Qed.

(** C3 on a run: the constructor is given 800x600, its first round trip
    brings a configuration without size and a commit, and one more
    configuration without size follows. *)
Lemma C3_configure_without_size_witness :
  libdecor_configuration_get_content_size
    (mkConfiguration None (Some LIBDECOR_WINDOW_STATE_ACTIVE)) = None
  /\ result
       (getClientBounds
          (final
             (frame_configure plain_build (libdecor_frame_at 18)
                (mkConfiguration None (Some LIBDECOR_WINDOW_STATE_ACTIVE))
                (final
                   (GHOST_WindowWayland_new plain_build 1%N blank_window_t
                      "Blender" 0 0 800 600 GHOST_kWindowStateNormal None
                      GHOST_kDrawingContextTypeOpenGL false false false
                      (host_with_inbox []
                         [NotifyConfigure (mkConfiguration None None);
                          NotifyCommit]))))))
     = mkRect 0 0 800 600.
Proof.
  split; [reflexivity |].
  exact (proj2 (proj2 (proj2
           (C3_configure_without_size_keeps_geometry plain_build
              (libdecor_frame_at 18)
              (mkConfiguration None (Some LIBDECOR_WINDOW_STATE_ACTIVE))
              (sample_world [] false false false) eq_refl)))
           1%N blank_window_t "Blender"%string 0 0 GHOST_kWindowStateNormal
           None GHOST_kDrawingContextTypeOpenGL false false false
           (host_with_inbox []
              [NotifyConfigure (mkConfiguration None None); NotifyCommit])
           eq_refl).
Defined.

(** C4 on a run: a configuration whose state is fullscreen and maximized
    (and active). *)
Lemma C4_getState_priority_witness :
  result
    (getState
       (final
          (frame_configure plain_build (libdecor_frame_at 3)
             (mkConfiguration None (Some 7))
             (sample_world [1%N] false false false))))
  = GHOST_kWindowStateFullScreen.
Proof.
  exact (proj2 (C4_getState_priority plain_build
                  (sample_world [1%N] false false false))
               (libdecor_frame_at 3) (mkConfiguration None (Some 7)) 7
               eq_refl eq_refl eq_refl).
Defined.

(** The drawing context on the scripted host: returned when the
    initialization succeeds, null when it fails. *)
Example newDrawingContext_on_failure :
  result (newDrawingContext plain_build GHOST_kDrawingContextTypeOpenGL
            (mkWorld (obj (sample_world [] false false false))
                     (mkScript 0 16 [] None [] false)))
  = None.
Proof. reflexivity. Qed.

Example newDrawingContext_on_success :
  result (newDrawingContext plain_build GHOST_kDrawingContextTypeOpenGL
            (sample_world [] false false false))
  = Some (GHOST_ContextEGL false (wl_egl_window_at 4) 1 3 3 0 0 12450).
Proof. reflexivity. Qed.

(* ------------------------------------------------------------------ *)
(** * Sequences of notifications *)

(** ** The further log readers distribute over concatenation *)

Lemma swaps_app (l1 l2 : list Logged) :
  swaps (l1 ++ l2) = swaps l1 ++ swaps l2.
Proof. apply flat_map_app. Qed.

Lemma states_new_app (l1 l2 : list Logged) :
  states_new (l1 ++ l2) = states_new l1 ++ states_new l2.
Proof. apply flat_map_app. Qed.

Lemma commits_app (l1 l2 : list Logged) :
  commits (l1 ++ l2) = commits l1 ++ commits l2.
Proof. apply flat_map_app. Qed.

Lemma states_freed_app (l1 l2 : list Logged) :
  states_freed (l1 ++ l2) = states_freed l1 ++ states_freed l2.
Proof. apply flat_map_app. Qed.

Lemma regions_created_app (l1 l2 : list Logged) :
  regions_created (l1 ++ l2) = regions_created l1 ++ regions_created l2.
Proof. apply flat_map_app. Qed.

Lemma regions_destroyed_app (l1 l2 : list Logged) :
  regions_destroyed (l1 ++ l2)
  = regions_destroyed l1 ++ regions_destroyed l2.
Proof. apply flat_map_app. Qed.

Lemma creations_app (l1 l2 : list Logged) :
  creations (l1 ++ l2) = creations l1 ++ creations l2.
Proof. apply flat_map_app. Qed.

Lemma parents_set_app (l1 l2 : list Logged) :
  parents_set (l1 ++ l2) = parents_set l1 ++ parents_set l2.
Proof. apply flat_map_app. Qed.

Lemma titles_set_app (l1 l2 : list Logged) :
  titles_set (l1 ++ l2) = titles_set l1 ++ titles_set l2.
Proof. apply flat_map_app. Qed.

Lemma app_ids_set_app (l1 l2 : list Logged) :
  app_ids_set (l1 ++ l2) = app_ids_set l1 ++ app_ids_set l2.
Proof. apply flat_map_app. Qed.

Lemma countb_app {A : Type} (p : A -> bool) (l1 l2 : list A) :
  countb p (l1 ++ l2) = (countb p l1 + countb p l2)%nat.
Proof. unfold countb. rewrite filter_app, length_app. reflexivity. Qed.

Lemma countb_cons {A : Type} (p : A -> bool) (a : A) (l : list A) :
  countb p (a :: l) = (countb p [a] + countb p l)%nat.
Proof. apply (countb_app p [a] l). Qed.

Lemma callback_log_nil : callback_log [].
Proof. repeat split. Qed.

Lemma callback_log_app (l1 l2 : list Logged) :
  callback_log l1 -> callback_log l2 -> callback_log (l1 ++ l2).
Proof.
  intros (C1 & R1 & D1 & P1 & T1 & A1 & S1 & G1)
         (C2 & R2 & D2 & P2 & T2 & A2 & S2 & G2).
  unfold callback_log.
  rewrite creations_app, releases_app, delivered_app, parents_set_app,
    titles_set_app, app_ids_set_app, states_freed_app, states_new_app,
    regions_destroyed_app, regions_created_app, map_app.
  rewrite C1, C2, R1, R2, D1, D2, P1, P2, T1, T2, A1, A2, S1, S2, G1, G2.
  repeat split.
Qed.

(** ** What one callback leaves in the log *)

Lemma notification_callback_log (build : BuildConfig) (self : WindowId)
    (win : window_t) (n : Notification) (log : list Logged) :
  notification_log build self win n log -> callback_log log.
Proof.
  destruct n as [configuration | |]; cbn [notification_log].
  - intros (region & time & pushed & accepted & atime & apushed & state
            & ->).
    unfold configure_log.
    destruct (GHOST_OPENGL_ALPHA build), (is_active _), accepted;
      repeat split.
  - intros (time & pushed & ->). repeat split.
  - intros (first & second & ->). repeat split.
Qed.

Lemma notifications_callback_log (build : BuildConfig) (self : WindowId)
    (pending : list Notification) :
  forall (win : window_t) (log : list Logged),
    notifications_log build self win pending log -> callback_log log.
Proof.
  induction pending as [| n rest IH]; cbn [notifications_log].
  - intros win log ->. apply callback_log_nil.
  - intros win log (here & after & -> & Hhere & Hafter).
    apply callback_log_app.
    + apply (notification_callback_log _ _ _ _ _ Hhere).
    + apply (IH _ _ Hafter).
Qed.

Section NotificationRuns.

Context {H : Type} {host_H : Host H}.
Variable build : BuildConfig.

(** The run of the callback of one notification. *)
Lemma libdecor_frame_iface_run (n : Notification) (s : World H) :
  exists h log,
    libdecor_frame_iface build n s
    = (tt, mkWorld (with_w (obj s) (notified (w (obj s)) n)) h, log)
    /\ notification_log build (this (obj s)) (w (obj s)) n log.
Proof.
  destruct n as [configuration | |];
    cbn [libdecor_frame_iface notified notification_log].
  - unfold bind at 1. cbn [get_w].
    destruct (frame_configure_run build (frame (w (obj s))) configuration s)
      as (region & time & pushed & accepted & atime & apushed & state & h
          & E).
    rewrite E. eexists h, _. split; [reflexivity |].
    exists region, time, pushed, accepted, atime, apushed, state.
    reflexivity.
  - destruct (frame_close_run s) as (time & pushed & h & E). rewrite E.
    destruct s as [[self win ttl stereo] h0].
    eexists h, _. split; [reflexivity |]. exists time, pushed. reflexivity.
  - destruct s as [[self win ttl stereo] h0].
    unfold frame_commit, bind, call, get_this, ret; cbn.
    destruct (respond (swapBuffers self) h0) as [first h1]; cbn.
    destruct (respond (swapBuffers self) h1) as [second h2]; cbn.
    eexists h2, _. split; [reflexivity |]. exists first, second.
    reflexivity.
Qed.

(** The run of the callbacks of a sequence of notifications. *)
Lemma dispatch_run (pending : list Notification) :
  forall s : World H,
    exists h log,
      dispatch build pending s
      = (tt, mkWorld (with_w (obj s) (notified_all pending (w (obj s)))) h,
         log)
      /\ notifications_log build (this (obj s)) (w (obj s)) pending log.
Proof.
  induction pending as [| n rest IH]; intros s;
    cbn [dispatch notified_all fold_left notifications_log].
  - destruct s as [[self win ttl stereo] h0].
    exists h0, []. split; reflexivity.
  - destruct (libdecor_frame_iface_run n s) as (h1 & here & E1 & Hhere).
    unfold bind. rewrite E1.
    destruct (IH (mkWorld (with_w (obj s) (notified (w (obj s)) n)) h1))
      as (h2 & after & E2 & Hafter).
    rewrite E2. exists h2, (here ++ after). split; [reflexivity |].
    exists here, after. repeat split; assumption.
Qed.

(** The run of a round trip. *)
Lemma roundtrip_run (s : World H) :
  exists pending h log,
    roundtrip build s
    = (tt, mkWorld (with_w (obj s) (notified_all pending (w (obj s)))) h,
       Did wl_display_roundtrip pending :: log)
    /\ notifications_log build (this (obj s)) (w (obj s)) pending log.
Proof.
  unfold roundtrip, bind, call.
  destruct (respond wl_display_roundtrip (host s)) as [pending h1].
  destruct (dispatch_run pending (mkWorld (obj s) h1))
    as (h2 & log & E & Hlog).
  rewrite E. exists pending, h2, log. split; [reflexivity | exact Hlog].
Qed.

End NotificationRuns.

(** ** The window after a sequence of notifications *)

Lemma notified_all_app (l1 l2 : list Notification) (win : window_t) :
  notified_all (l1 ++ l2) win = notified_all l2 (notified_all l1 win).
Proof. apply fold_left_app. Qed.

(** No callback touches the handles or the dialog flag. *)
Lemma notified_all_handles (pending : list Notification) :
  forall win : window_t,
    surface (notified_all pending win) = surface win
    /\ frame (notified_all pending win) = frame win
    /\ egl_window (notified_all pending win) = egl_window win
    /\ is_dialog (notified_all pending win) = is_dialog win.
Proof.
  induction pending as [| n rest IH]; intros win.
  - repeat split.
  - cbn [notified_all fold_left]. fold (notified_all rest (notified win n)).
    destruct (IH (notified win n)) as (Hs & Hf & He & Hd).
    rewrite Hs, Hf, He, Hd. destruct n; repeat split.
Qed.

Lemma notified_all_without_configure (pending : list Notification) :
  forall win : window_t,
    countb is_configure pending = 0%nat ->
    notified_all pending win = win.
Proof.
  induction pending as [| n rest IH]; intros win Hnone.
  - reflexivity.
  - rewrite countb_cons in Hnone.
    destruct n; cbn in Hnone; try discriminate; apply IH; exact Hnone.
Qed.

Lemma notified_all_lacks_size (pending : list Notification) :
  forall win : window_t,
    forallb lacks_size pending = true ->
    width (notified_all pending win) = width win
    /\ height (notified_all pending win) = height win.
Proof.
  induction pending as [| n rest IH]; intros win Hall.
  - split; reflexivity.
  - cbn [forallb] in Hall. apply andb_prop in Hall as [Hn Hrest].
    cbn [notified_all fold_left]. fold (notified_all rest (notified win n)).
    destruct (IH (notified win n) Hrest) as [Hw Hh]. rewrite Hw, Hh.
    destruct n as [configuration | |]; try (split; reflexivity).
    cbn [lacks_size] in Hn. cbn [notified configured width height].
    unfold adopted_size.
    destruct (libdecor_configuration_get_content_size configuration);
      [discriminate | split; reflexivity].
Qed.

Section ConstructorRun.

Context {H : Type} {host_H : Host H}.
Variable build : BuildConfig.

(** The run of the constructor. *)
Lemma construct_run (title_ : string) (width_ height_ : Z)
    (parentWindow : option GHOST_WindowWayland)
    (type : GHOST_TDrawingContextType) (is_dialog_ : bool)
    (self : WindowId) (fresh : window_t) (ttl : string) (stereo : bool)
    (h0 : H) :
  exists s e f p1 p2 p3 l1 l2 l3 region created h,
    let base :=
      mkWindowT s f e (is_maximised fresh) (is_fullscreen fresh)
                (is_active fresh) is_dialog_
                (int32_t width_) (int32_t height_) in
    let after := notified_all (p1 ++ p2 ++ p3) base in
    construct build title_ width_ height_ parentWindow type is_dialog_
              (mkWorld (mkWindow self fresh ttl stereo) h0)
    = (tt, mkWorld (mkWindow self after title_ stereo) h,
       construct_log build self title_ width_ height_ parentWindow type
                     s e f p1 p2 p3 l1 l2 l3 region after created)
    /\ notifications_log build self base p1 l1
    /\ notifications_log build self (notified_all p1 base) p2 l2
    /\ notifications_log build self (notified_all (p1 ++ p2) base) p3 l3.
Proof.
  destruct fresh as [sf0 fr0 eg0 bm bf ba bd w0 hh0].
  unfold construct, bind, assign, get_w, put_w, get_this;
    cbn -[roundtrip setTitle setOpaque notified_all].
  unfold call at 1; cbn -[roundtrip setTitle setOpaque notified_all].
  destruct (respond wl_compositor_create_surface h0) as [s h1];
    cbn -[roundtrip setTitle setOpaque notified_all].
  unfold call at 1; cbn -[roundtrip setTitle setOpaque notified_all].
  destruct (respond (wl_egl_window_create s (int32_t width_)
                                          (int32_t height_)) h1)
    as [e h2]; cbn -[roundtrip setTitle setOpaque notified_all].
  unfold call at 1; cbn -[roundtrip setTitle setOpaque notified_all].
  destruct (respond (wl_surface_set_user_data s self) h2) as [[] h3];
    cbn -[roundtrip setTitle setOpaque notified_all].
  unfold call at 1; cbn -[roundtrip setTitle setOpaque notified_all].
  destruct (respond (libdecor_decorate s self) h3) as [f h4];
    cbn -[roundtrip setTitle setOpaque notified_all].
  unfold call at 1; cbn -[roundtrip setTitle setOpaque notified_all].
  destruct (respond (libdecor_frame_map f) h4) as [[] h5];
    cbn -[roundtrip setTitle setOpaque notified_all].
  unfold set_frame, set_egl_window, set_surface, set_is_dialog, set_height,
    set_width; cbn -[roundtrip setTitle setOpaque notified_all].
  set (base := mkWindowT s f e bm bf ba is_dialog_
                         (int32_t width_) (int32_t height_)).
  assert (Hparent : exists h6,
            match parentWindow with
            | Some parent =>
                call (libdecor_frame_set_parent f (frame (w parent)))
            | None => ret tt
            end (mkWorld (mkWindow self base ttl stereo) h5)
            = (tt, mkWorld (mkWindow self base ttl stereo) h6,
               match parentWindow with
               | Some parent =>
                   [Did (libdecor_frame_set_parent f (frame (w parent))) tt]
               | None => []
               end)).
  { destruct parentWindow as [parent |].
    - unfold call; cbn.
      destruct (respond (libdecor_frame_set_parent f (frame (w parent))) h5)
        as [[] h6]. exists h6. reflexivity.
    - exists h5. reflexivity. }
  destruct Hparent as (h6 & Eparent). rewrite Eparent. clear Eparent.
  destruct (roundtrip_run build (mkWorld (mkWindow self base ttl stereo) h6))
    as (p1 & h7 & l1 & E1 & Hl1).
  rewrite E1. clear E1. cbn [obj w this] in Hl1.
  unfold with_w; cbn -[roundtrip setTitle setOpaque notified_all].
  destruct (roundtrip_run build
              (mkWorld (mkWindow self (notified_all p1 base) ttl stereo) h7))
    as (p2 & h8 & l2 & E2 & Hl2).
  rewrite E2. clear E2. cbn [obj w this] in Hl2.
  unfold with_w; cbn -[roundtrip setTitle setOpaque notified_all].
  rewrite <- notified_all_app.
  destruct (roundtrip_run build
              (mkWorld (mkWindow self (notified_all (p1 ++ p2) base)
                                 ttl stereo) h8))
    as (p3 & h9 & l3 & E3 & Hl3).
  rewrite E3. clear E3. cbn [obj w this] in Hl3.
  unfold with_w; cbn -[roundtrip setTitle setOpaque notified_all].
  rewrite <- notified_all_app, <- app_assoc.
  set (after := notified_all (p1 ++ p2 ++ p3) base).
  destruct (notified_all_handles (p1 ++ p2 ++ p3) base)
    as (Hsurface & Hframe & _ & _).
  fold after in Hsurface, Hframe. cbn [base surface frame] in Hsurface, Hframe.
  assert (Hopaque : exists region h10,
            (if GHOST_OPENGL_ALPHA build then setOpaque else ret tt)
              (mkWorld (mkWindow self after ttl stereo) h9)
            = (tt, mkWorld (mkWindow self after ttl stereo) h10,
               opaque_log (GHOST_OPENGL_ALPHA build) region after)).
  { destruct (GHOST_OPENGL_ALPHA build).
    - destruct (setOpaque_run (mkWorld (mkWindow self after ttl stereo) h9))
        as (region & h10 & E).
      exists region, h10. exact E.
    - exists (wl_region_at 0), h9. reflexivity. }
  destruct Hopaque as (region & h10 & Eopaque). rewrite Eopaque.
  clear Eopaque.
  unfold setTitle, bind, get_w, put_title, call; cbn. rewrite Hframe.
  destruct (respond (libdecor_frame_set_app_id f title_) h10) as [[] h11];
    cbn.
  destruct (respond (libdecor_frame_set_title f title_) h11) as [[] h12];
    cbn.
  destruct (respond (setDrawingContextType self type) h12)
    as [created h13]; cbn.
  destruct created; cbn.
  - destruct (respond (GHOST_PRINT "Failed to create EGL context") h13)
      as [[] h14]; cbn.
    exists s, e, f, p1, p2, p3, l1, l2, l3, region, GHOST_kFailure, h14.
    cbv zeta. fold base. fold after.
    split; [| repeat split; assumption].
    unfold construct_log. cbn [app].
    reflexivity.
  - exists s, e, f, p1, p2, p3, l1, l2, l3, region, GHOST_kSuccess, h13.
    cbv zeta. fold base. fold after.
    split; [| repeat split; assumption].
    unfold construct_log. cbn [app].
    reflexivity.
Qed.

End ConstructorRun.

(** ** What the callbacks push, swap and allocate *)

Lemma accounted_nil (self : WindowId) : accounted self [] [].
Proof. repeat split. constructor. Qed.

Lemma accounted_app (self : WindowId) (p1 p2 : list Notification)
    (l1 l2 : list Logged) :
  accounted self p1 l1 -> accounted self p2 l2 ->
  accounted self (p1 ++ p2) (l1 ++ l2).
Proof.
  unfold accounted.
  intros (S1 & C1 & D1 & A1 & W1 & B1 & N1) (S2 & C2 & D2 & A2 & W2 & B2 & N2).
  rewrite pushed_events_app, activation_answers_app, swaps_app,
    states_new_app, !countb_app, !length_app.
  rewrite S1, S2, C1, C2, A1, A2, B1, B2, N1, N2,
    Nat.mul_add_distr_l, repeat_app.
  repeat split; try lia.
  apply Forall_app. split; assumption.
Qed.

Lemma notification_accounted (build : BuildConfig) (self : WindowId)
    (win : window_t) (n : Notification) (log : list Logged) :
  notification_log build self win n log -> accounted self [n] log.
Proof.
  destruct n as [configuration | |]; cbn [notification_log].
  - intros (region & time & pushed & accepted & atime & apushed & state
            & ->).
    unfold configure_log.
    destruct (GHOST_OPENGL_ALPHA build), (is_active _), accepted;
      repeat split; repeat constructor.
  - intros (time & pushed & ->). repeat split; repeat constructor.
  - intros (first & second & ->). repeat split; repeat constructor.
Qed.

Lemma notifications_accounted (build : BuildConfig) (self : WindowId)
    (pending : list Notification) :
  forall (win : window_t) (log : list Logged),
    notifications_log build self win pending log ->
    accounted self pending log.
Proof.
  induction pending as [| n rest IH]; cbn [notifications_log].
  - intros win log ->. apply accounted_nil.
  - intros win log (here & after & -> & Hhere & Hafter).
    apply (accounted_app self [n] rest).
    + apply (notification_accounted _ _ _ _ _ Hhere).
    + apply (IH _ _ Hafter).
Qed.

Section Callbacks.

Context {H : Type} {host_H : Host H}.
Variable build : BuildConfig.

(** X1.  Every configuration is acknowledged once, last, and with the
    size the window adopted: [frame_configure] resizes the native surface
    once, creates one libdecor state, commits it once on the frame of the
    callback together with the configuration it was given, frees it, and
    these three calls end the run; the resize, the state and the bounds
    reported afterwards all carry the adopted size. *)
Theorem frame_configure_acknowledges_adopted_size
    (frame_ : libdecor_frame) (configuration : libdecor_configuration)
    (s : World H) :
  let run := frame_configure build frame_ configuration s in
  let size := adopted_size (w (obj s)) configuration in
  exists state before,
    log_of run
    = before
      ++ [Did (libdecor_state_new (fst size) (snd size)) state;
          Did (libdecor_frame_commit frame_ state configuration) tt;
          Did (libdecor_state_free state) tt]
    /\ egl_resizes (log_of run) = [(fst size, snd size)]
    /\ states_new (log_of run) = [(fst size, snd size, state)]
    /\ commits (log_of run) = [(frame_, state, configuration)]
    /\ states_freed (log_of run) = [state]
    /\ result (getClientBounds (final run))
       = mkRect 0 0 (fst size) (snd size).
Proof.
  cbv zeta.
  destruct (frame_configure_run build frame_ configuration s)
    as (region & time & pushed & accepted & atime & apushed & state & h
        & E).
  rewrite E. unfold log_of, final, result, configure_log; cbn [fst snd].
  cbn [configured width height egl_window is_active].
  exists state.
  eexists (Did _ tt :: opaque_log _ region _ ++ event_log time _ _ pushed
           ++ (if adopted_active configuration
               then activate_log _ accepted atime apushed
               else deactivate_log _ atime apushed)).
  split.
  - rewrite <- app_comm_cons, <- !app_assoc. reflexivity.
  - destruct (GHOST_OPENGL_ALPHA build), (adopted_active configuration),
      accepted; repeat split.
Qed.


(** X3.  A configuration event that is delivered again changes nothing
    in the window: the window object after two runs of [frame_configure]
    with one configuration is the object after the first. *)
Theorem frame_configure_idempotent
    (frame_ frame' : libdecor_frame)
    (configuration : libdecor_configuration) (s : World H) :
  obj (final (frame_configure build frame' configuration
                (final (frame_configure build frame_ configuration s))))
  = obj (final (frame_configure build frame_ configuration s)).
Proof.
  destruct (frame_configure_run build frame_ configuration s)
    as (region & time & pushed & accepted & atime & apushed & state & h
        & E).
  rewrite E. unfold final at 2 3. cbn [fst snd].
  destruct (frame_configure_run build frame' configuration
              (mkWorld (with_w (obj s)
                               (configured (w (obj s)) configuration)) h))
    as (region' & time' & pushed' & accepted' & atime' & apushed'
        & state' & h' & E').
  rewrite E'. unfold final, with_w, configured, adopted_size; cbn.
  destruct (libdecor_configuration_get_content_size configuration)
    as [[cw ch] |]; reflexivity.
Qed.

(** X4.  After the callbacks of a sequence of notifications, the flags
    of the window are those of the last configuration in the sequence,
    and [getState] answers from them: what came before that
    configuration, and the close and commit notifications after it, make
    no difference. *)
Theorem state_follows_last_configuration
    (pre post : list Notification)
    (configuration : libdecor_configuration) (s : World H) :
  countb is_configure post = 0%nat ->
  let s' :=
    final (dispatch build (pre ++ NotifyConfigure configuration :: post)
                    s) in
  let st := adopted_state configuration in
  is_maximised (w (obj s'))
  = to_bool (Z.land st LIBDECOR_WINDOW_STATE_MAXIMIZED)
  /\ is_fullscreen (w (obj s'))
     = to_bool (Z.land st LIBDECOR_WINDOW_STATE_FULLSCREEN)
  /\ is_active (w (obj s'))
     = to_bool (Z.land st LIBDECOR_WINDOW_STATE_ACTIVE)
  /\ result (getState s')
     = if to_bool (Z.land st LIBDECOR_WINDOW_STATE_FULLSCREEN)
       then GHOST_kWindowStateFullScreen
       else if to_bool (Z.land st LIBDECOR_WINDOW_STATE_MAXIMIZED)
            then GHOST_kWindowStateMaximized
            else GHOST_kWindowStateNormal.
Proof.
  intros Hpost. cbv zeta.
  destruct (dispatch_run build (pre ++ NotifyConfigure configuration :: post)
                         s) as (h & log & E & _).
  rewrite E. unfold final, result, getState, bind, get_w; cbn [fst snd obj].
  unfold with_w; cbn [w].
  rewrite notified_all_app. cbn [notified_all fold_left notified].
  fold (notified_all post
          (configured (notified_all pre (w (obj s))) configuration)).
  rewrite (notified_all_without_configure post _ Hpost).
  cbn [configured is_maximised is_fullscreen is_active].
  unfold adopted_active.
  destruct (to_bool (Z.land (adopted_state configuration)
                            LIBDECOR_WINDOW_STATE_FULLSCREEN)),
           (to_bool (Z.land (adopted_state configuration)
                            LIBDECOR_WINDOW_STATE_MAXIMIZED));
    repeat split.
Qed.

(** X5.  Close and commit notifications never change the window: after
    the callbacks of a sequence without a configuration, the window
    object is the one before. *)
Theorem close_and_commit_keep_window
    (pending : list Notification) (s : World H) :
  countb is_configure pending = 0%nat ->
  obj (final (dispatch build pending s)) = obj s.
Proof.
  intros Hnone.
  destruct (dispatch_run build pending s) as (h & log & E & _).
  rewrite E. unfold final; cbn [fst snd obj].
  rewrite (notified_all_without_configure pending _ Hnone).
  destruct s as [[self win ttl stereo] h0]. reflexivity.
Qed.

(** X6.  The bounds follow the last configuration that carried a size:
    after the callbacks of a sequence in which a configuration with
    content size (cw, ch) is followed only by notifications without a
    size, both bounds queries answer (0, 0, cw, ch). *)
Theorem bounds_follow_last_sized_configuration
    (pre post : list Notification)
    (configuration : libdecor_configuration) (cw ch : Z) (s : World H) :
  libdecor_configuration_get_content_size configuration = Some (cw, ch) ->
  forallb lacks_size post = true ->
  let s' :=
    final (dispatch build (pre ++ NotifyConfigure configuration :: post)
                    s) in
  result (getClientBounds s') = mkRect 0 0 cw ch
  /\ result (getWindowBounds s') = mkRect 0 0 cw ch.
Proof.
  intros Hsize Hpost. cbv zeta.
  destruct (dispatch_run build (pre ++ NotifyConfigure configuration :: post)
                         s) as (h & log & E & _).
  rewrite E.
  unfold final, result, getWindowBounds, getClientBounds, bind, get_w, ret;
    cbn [fst snd obj].
  unfold with_w; cbn [w].
  rewrite notified_all_app. cbn [notified_all fold_left notified].
  fold (notified_all post
          (configured (notified_all pre (w (obj s))) configuration)).
  destruct (notified_all_lacks_size post
              (configured (notified_all pre (w (obj s))) configuration)
              Hpost) as [Hw Hh].
  rewrite Hw, Hh. cbn [configured width height]. unfold adopted_size.
  rewrite Hsize. split; reflexivity.
Qed.

(** X7.  The events of a sequence of notifications: one size event for
    each configuration and one close event for each close notification;
    each configuration either asks the window manager once to make the
    window active or pushes one deactivation event; the activation
    events are as many as the acceptances of the window manager; and
    every event names this window. *)
Theorem dispatch_events (pending : list Notification) (s : World H) :
  let log := log_of (dispatch build pending s) in
  let events := pushed_events log in
  countb (has_type GHOST_kEventWindowSize) events
  = countb is_configure pending
  /\ countb (has_type GHOST_kEventWindowClose) events
     = countb is_close pending
  /\ (List.length (activation_answers log)
      + countb (has_type GHOST_kEventWindowDeactivate) events
      = countb is_configure pending)%nat
  /\ countb (has_type GHOST_kEventWindowActivate) events
     = countb is_success (activation_answers log)
  /\ Forall (fun event => ev_window event = this (obj s)) events.
Proof.
  cbv zeta.
  destruct (dispatch_run build pending s) as (h & log & E & Hlog).
  rewrite E. unfold log_of; cbn [snd].
  destruct (notifications_accounted _ _ _ _ _ Hlog)
    as (S1 & C1 & D1 & A1 & W1 & _ & _).
  repeat split; assumption.
Qed.

(** X8.  The buffers are swapped twice for each commit notification, by
    this window, and by no other callback. *)
Theorem dispatch_swaps_twice_per_commit
    (pending : list Notification) (s : World H) :
  swaps (log_of (dispatch build pending s))
  = repeat (this (obj s)) (2 * countb is_commit pending).
Proof.
  destruct (dispatch_run build pending s) as (h & log & E & Hlog).
  rewrite E. unfold log_of; cbn [snd].
  apply (notifications_accounted _ _ _ _ _ Hlog).
Qed.

(** X9.  The callbacks free what they create and touch no native handle:
    in the log of a sequence of notifications there is one libdecor
    state for each configuration, the states freed are the states
    created, in order, the regions destroyed are the regions created,
    and no surface, native window or frame is created or given back. *)
Theorem dispatch_frees_what_it_creates
    (pending : list Notification) (s : World H) :
  let log := log_of (dispatch build pending s) in
  List.length (states_new log) = countb is_configure pending
  /\ states_freed log = map snd (states_new log)
  /\ regions_destroyed log = regions_created log
  /\ creations log = []
  /\ releases log = [].
Proof.
  cbv zeta.
  destruct (dispatch_run build pending s) as (h & log & E & Hlog).
  rewrite E. unfold log_of; cbn [snd].
  destruct (notifications_accounted _ _ _ _ _ Hlog)
    as (_ & _ & _ & _ & _ & _ & N1).
  destruct (notifications_callback_log _ _ _ _ _ Hlog)
    as (C1 & R1 & _ & _ & _ & _ & S1 & G1).
  repeat split; assumption.
Qed.

End Callbacks.

(* ------------------------------------------------------------------ *)
(** * Construction, destruction and the host-driven calls *)

(** ** Integer conversions *)

Lemma int32_t_small (x : Z) : 0 <= x < 2 ^ 31 -> int32_t x = x.
Proof.
  intros Hx. unfold int32_t.
  rewrite Z.mod_small; lia.
Qed.

Lemma int32_t_large (x : Z) :
  2 ^ 31 <= x < 2 ^ 32 -> int32_t x = x - 2 ^ 32.
Proof.
  intros Hx. unfold int32_t.
  replace (x + 2 ^ 31) with ((x - 2 ^ 31) + 1 * 2 ^ 32) by lia.
  rewrite Z.mod_add by lia. rewrite Z.mod_small; lia.
Qed.


Section HostDriven.

Context {H : Type} {host_H : Host H}.
Variable build : BuildConfig.

(** The facts about a run of the constructor that the theorems below
    share. *)
Lemma GHOST_WindowWayland_new_facts (self : WindowId) (fresh : window_t)
    (title_ : string) (left top width_ height_ : Z)
    (state : GHOST_TWindowState)
    (parentWindow : option GHOST_WindowWayland)
    (type : GHOST_TDrawingContextType)
    (is_dialog_ stereoVisual exclusive : bool) (h : H) :
  let built :=
    GHOST_WindowWayland_new build self fresh title_ left top width_ height_
      state parentWindow type is_dialog_ stereoVisual exclusive h in
  exists s e f,
    obj (final built)
    = mkWindow self
        (notified_all (delivered (log_of built))
           (mkWindowT s f e (is_maximised fresh) (is_fullscreen fresh)
                      (is_active fresh) is_dialog_
                      (int32_t width_) (int32_t height_)))
        title_ stereoVisual
    /\ creations (log_of built)
       = [CreatedSurface s;
          CreatedEglWindow s (int32_t width_) (int32_t height_) e;
          CreatedFrame s self f]
    /\ releases (log_of built) = []
    /\ app_ids_set (log_of built) = [(f, title_)]
    /\ titles_set (log_of built) = [(f, title_)]
    /\ parents_set (log_of built)
       = match parentWindow with
         | Some parent => [(f, frame (w parent))]
         | None => []
         end.
Proof.
  cbv zeta. unfold GHOST_WindowWayland_new.
  destruct (construct_run build title_ width_ height_ parentWindow type
              is_dialog_ self fresh EmptyString stereoVisual h)
    as (s & e & f & p1 & p2 & p3 & l1 & l2 & l3 & region & created & h'
        & E & Hl1 & Hl2 & Hl3).
  cbv zeta in E. rewrite E. clear E.
  apply notifications_callback_log in Hl1, Hl2, Hl3.
  destruct Hl1 as (C1 & R1 & D1 & P1 & T1 & A1 & _ & _).
  destruct Hl2 as (C2 & R2 & D2 & P2 & T2 & A2 & _ & _).
  destruct Hl3 as (C3 & R3 & D3 & P3 & T3 & A3 & _ & _).
  exists s, e, f.
  unfold final, log_of, construct_log; cbn [fst snd obj].
  assert (Hdelivered :
    delivered
      ([Did wl_compositor_create_surface s;
        Did (wl_egl_window_create s (int32_t width_) (int32_t height_)) e;
        Did (wl_surface_set_user_data s self) tt;
        Did (libdecor_decorate s self) f;
        Did (libdecor_frame_map f) tt]
       ++ match parentWindow with
          | Some parent =>
              [Did (libdecor_frame_set_parent f (frame (w parent))) tt]
          | None => []
          end
       ++ (Did wl_display_roundtrip p1 :: l1)
       ++ (Did wl_display_roundtrip p2 :: l2)
       ++ (Did wl_display_roundtrip p3 :: l3)
       ++ opaque_log (GHOST_OPENGL_ALPHA build) region
            (notified_all (p1 ++ p2 ++ p3)
               (mkWindowT s f e (is_maximised fresh) (is_fullscreen fresh)
                          (is_active fresh) is_dialog_
                          (int32_t width_) (int32_t height_)))
       ++ [Did (libdecor_frame_set_app_id f title_) tt;
           Did (libdecor_frame_set_title f title_) tt;
           Did (setDrawingContextType self type) created]
       ++ match created with
          | GHOST_kFailure =>
              [Did (GHOST_PRINT "Failed to create EGL context") tt]
          | GHOST_kSuccess => []
          end)
    = p1 ++ p2 ++ p3).
  { rewrite !delivered_app.
    change (delivered (Did wl_display_roundtrip p1 :: l1))
      with (p1 ++ delivered l1).
    change (delivered (Did wl_display_roundtrip p2 :: l2))
      with (p2 ++ delivered l2).
    change (delivered (Did wl_display_roundtrip p3 :: l3))
      with (p3 ++ delivered l3).
    rewrite D1, D2, D3, !app_nil_r.
    destruct parentWindow, (GHOST_OPENGL_ALPHA build), created;
      cbn; rewrite ?app_nil_r; reflexivity. }
  rewrite Hdelivered.
  split; [reflexivity |].
  rewrite !creations_app, !releases_app, !app_ids_set_app, !titles_set_app,
    !parents_set_app.
  change (creations (Did wl_display_roundtrip p1 :: l1)) with (creations l1).
  change (creations (Did wl_display_roundtrip p2 :: l2)) with (creations l2).
  change (creations (Did wl_display_roundtrip p3 :: l3)) with (creations l3).
  change (releases (Did wl_display_roundtrip p1 :: l1)) with (releases l1).
  change (releases (Did wl_display_roundtrip p2 :: l2)) with (releases l2).
  change (releases (Did wl_display_roundtrip p3 :: l3)) with (releases l3).
  change (app_ids_set (Did wl_display_roundtrip p1 :: l1))
    with (app_ids_set l1).
  change (app_ids_set (Did wl_display_roundtrip p2 :: l2))
    with (app_ids_set l2).
  change (app_ids_set (Did wl_display_roundtrip p3 :: l3))
    with (app_ids_set l3).
  change (titles_set (Did wl_display_roundtrip p1 :: l1))
    with (titles_set l1).
  change (titles_set (Did wl_display_roundtrip p2 :: l2))
    with (titles_set l2).
  change (titles_set (Did wl_display_roundtrip p3 :: l3))
    with (titles_set l3).
  change (parents_set (Did wl_display_roundtrip p1 :: l1))
    with (parents_set l1).
  change (parents_set (Did wl_display_roundtrip p2 :: l2))
    with (parents_set l2).
  change (parents_set (Did wl_display_roundtrip p3 :: l3))
    with (parents_set l3).
  rewrite C1, C2, C3, R1, R2, R3, A1, A2, A3, T1, T2, T3, P1, P2, P3.
  destruct parentWindow, (GHOST_OPENGL_ALPHA build), created;
    repeat split.
Qed.

(** X10.  The constructor keeps what it obtains: whatever the round
    trips deliver, the surface, the native window and the frame of the
    new window are the ones the host handed out, each obtained once; the
    native window is created on that surface with the requested size and
    the frame on that surface for this window; the window is a dialog
    exactly if it was constructed as one; it gets the title both as
    application id and as title of its frame; its frame gets a parent
    exactly when a parent window is given, the frame of that parent; and
    nothing is given back during construction. *)
Theorem constructor_keeps_what_it_obtains (self : WindowId)
    (fresh : window_t) (title_ : string) (left top width_ height_ : Z)
    (state : GHOST_TWindowState)
    (parentWindow : option GHOST_WindowWayland)
    (type : GHOST_TDrawingContextType)
    (is_dialog_ stereoVisual exclusive : bool) (h : H) :
  let built :=
    GHOST_WindowWayland_new build self fresh title_ left top width_ height_
      state parentWindow type is_dialog_ stereoVisual exclusive h in
  let o := obj (final built) in
  creations (log_of built)
  = [CreatedSurface (surface (w o));
     CreatedEglWindow (surface (w o)) (int32_t width_) (int32_t height_)
                      (egl_window (w o));
     CreatedFrame (surface (w o)) self (frame (w o))]
  /\ this o = self
  /\ result (isDialog (final built)) = is_dialog_
  /\ title o = title_
  /\ app_ids_set (log_of built) = [(frame (w o), title_)]
  /\ titles_set (log_of built) = [(frame (w o), title_)]
  /\ parents_set (log_of built)
     = match parentWindow with
       | Some parent => [(frame (w o), frame (w parent))]
       | None => []
       end
  /\ releases (log_of built) = [].
Proof.
  cbv zeta.
  destruct (GHOST_WindowWayland_new_facts self fresh title_ left top width_
              height_ state parentWindow type is_dialog_ stereoVisual
              exclusive h)
    as (s & e & f & Hobj & Hcreated & Hreleased & Hids & Htitles
        & Hparents).
  unfold isDialog, bind, get_w, ret, result; cbn [fst].
  rewrite Hobj, Hcreated, Hreleased, Hids, Htitles, Hparents.
  cbn [w this title].
  match goal with
  | |- context [notified_all ?p ?base] =>
      destruct (notified_all_handles p base) as (Hs & Hf & He & Hd);
      rewrite Hs, Hf, He, Hd
  end.
  repeat split.
Qed.

(** X11.  Destruction gives back what construction obtained: the
    destructor of a window, run after its constructor and whatever the
    round trips delivered, releases the native handles of the base
    class, then the frame, then the native window, then the surface,
    each once, and these are the frame, native window and surface the
    constructor obtained. *)
Theorem destructor_releases_what_constructor_obtained (self : WindowId)
    (fresh : window_t) (title_ : string) (left top width_ height_ : Z)
    (state : GHOST_TWindowState)
    (parentWindow : option GHOST_WindowWayland)
    (type : GHOST_TDrawingContextType)
    (is_dialog_ stereoVisual exclusive : bool) (h : H) :
  let built :=
    GHOST_WindowWayland_new build self fresh title_ left top width_ height_
      state parentWindow type is_dialog_ stereoVisual exclusive h in
  exists s e f,
    creations (log_of built)
    = [CreatedSurface s;
       CreatedEglWindow s (int32_t width_) (int32_t height_) e;
       CreatedFrame s self f]
    /\ releases (snd (GHOST_WindowWayland_delete (final built)))
       = [Did (releaseNativeHandles self) tt;
          Did (libdecor_frame_unref f) tt;
          Did (wl_egl_window_destroy e) tt;
          Did (wl_surface_destroy s) tt].
Proof.
  cbv zeta.
  destruct (GHOST_WindowWayland_new_facts self fresh title_ left top width_
              height_ state parentWindow type is_dialog_ stereoVisual
              exclusive h)
    as (s & e & f & Hobj & Hcreated & _).
  exists s, e, f. split; [exact Hcreated |].
  rewrite delete_releases, Hobj. cbn [w this].
  match goal with
  | |- context [notified_all ?p ?base] =>
      destruct (notified_all_handles p base) as (Hs & Hf & He & _);
      rewrite Hs, Hf, He
  end.
  reflexivity.
Qed.

(** X12.  A window constructed with a width and a height below 2^31, to
    which the round trips of the constructor bring no size, reports
    exactly the requested size. *)
Theorem constructed_window_reports_requested_size (self : WindowId)
    (fresh : window_t) (title_ : string) (left top width_ height_ : Z)
    (state : GHOST_TWindowState)
    (parentWindow : option GHOST_WindowWayland)
    (type : GHOST_TDrawingContextType)
    (is_dialog_ stereoVisual exclusive : bool) (h : H) :
  let built :=
    GHOST_WindowWayland_new build self fresh title_ left top width_ height_
      state parentWindow type is_dialog_ stereoVisual exclusive h in
  0 <= width_ < 2 ^ 31 ->
  0 <= height_ < 2 ^ 31 ->
  forallb lacks_size (delivered (log_of built)) = true ->
  result (getClientBounds (final built)) = mkRect 0 0 width_ height_.
Proof.
  cbv zeta. intros Hwidth Hheight Hquiet.
  destruct (GHOST_WindowWayland_new_facts self fresh title_ left top width_
              height_ state parentWindow type is_dialog_ stereoVisual
              exclusive h) as (s & e & f & Hobj & _).
  unfold getClientBounds, bind, get_w, ret, result; cbn [fst].
  rewrite Hobj. cbn [w].
  match goal with
  | |- context [notified_all ?p ?base] =>
      destruct (notified_all_lacks_size p base Hquiet) as [Hw Hh];
      rewrite Hw, Hh
  end.
  cbn [width height].
  rewrite (int32_t_small _ Hwidth), (int32_t_small _ Hheight). reflexivity.
Qed.

(** X13.  A requested width of 2^31 or more does not survive the
    conversion to [int32_t]: the window then reports the width minus
    2^32, a negative right edge, when the round trips bring no size. *)
Theorem constructed_window_wraps_large_width (self : WindowId)
    (fresh : window_t) (title_ : string) (left top width_ height_ : Z)
    (state : GHOST_TWindowState)
    (parentWindow : option GHOST_WindowWayland)
    (type : GHOST_TDrawingContextType)
    (is_dialog_ stereoVisual exclusive : bool) (h : H) :
  let built :=
    GHOST_WindowWayland_new build self fresh title_ left top width_ height_
      state parentWindow type is_dialog_ stereoVisual exclusive h in
  2 ^ 31 <= width_ < 2 ^ 32 ->
  forallb lacks_size (delivered (log_of built)) = true ->
  m_r (result (getClientBounds (final built))) = width_ - 2 ^ 32
  /\ m_r (result (getClientBounds (final built))) < 0.
Proof.
  cbv zeta. intros Hwidth Hquiet.
  destruct (GHOST_WindowWayland_new_facts self fresh title_ left top width_
              height_ state parentWindow type is_dialog_ stereoVisual
              exclusive h) as (s & e & f & Hobj & _).
  unfold getClientBounds, bind, get_w, ret, result; cbn [fst m_r].
  rewrite Hobj. cbn [w].
  match goal with
  | |- context [notified_all ?p ?base] =>
      destruct (notified_all_lacks_size p base Hquiet) as [Hw _];
      rewrite Hw
  end.
  cbn [width]. rewrite (int32_t_large _ Hwidth). lia.
Qed.

(** X14.  A size delivered during construction overrides the size the
    constructor was given: when the notifications of the round trips of
    the constructor contain a configuration with content size (cw, ch),
    followed only by notifications without a size, the new window
    reports (0, 0, cw, ch). *)
Theorem constructed_window_adopts_delivered_size (self : WindowId)
    (fresh : window_t) (title_ : string) (left top width_ height_ : Z)
    (state : GHOST_TWindowState)
    (parentWindow : option GHOST_WindowWayland)
    (type : GHOST_TDrawingContextType)
    (is_dialog_ stereoVisual exclusive : bool) (h : H)
    (pre post : list Notification)
    (configuration : libdecor_configuration) (cw ch : Z) :
  let built :=
    GHOST_WindowWayland_new build self fresh title_ left top width_ height_
      state parentWindow type is_dialog_ stereoVisual exclusive h in
  delivered (log_of built) = pre ++ NotifyConfigure configuration :: post ->
  libdecor_configuration_get_content_size configuration = Some (cw, ch) ->
  forallb lacks_size post = true ->
  result (getClientBounds (final built)) = mkRect 0 0 cw ch.
Proof.
  cbv zeta. intros Hdelivered Hsize Hpost.
  destruct (GHOST_WindowWayland_new_facts self fresh title_ left top width_
              height_ state parentWindow type is_dialog_ stereoVisual
              exclusive h) as (s & e & f & Hobj & _).
  unfold getClientBounds, bind, get_w, ret, result; cbn [fst].
  rewrite Hobj, Hdelivered. cbn [w].
  rewrite notified_all_app. cbn [notified_all fold_left notified].
  match goal with
  | |- context [fold_left notified post ?win] =>
      fold (notified_all post win);
      destruct (notified_all_lacks_size post win Hpost) as [Hw Hh];
      rewrite Hw, Hh
  end.
  cbn [configured width height]. unfold adopted_size. rewrite Hsize.
  reflexivity.
Qed.

(** X15.  [setState] never changes the window: whatever state is
    requested, the window object, and with it the answer of [getState],
    is the same after the call; the call makes at most one call on a
    collaborator, a command to the decoration layer; and it fails
    exactly for the embedded state. *)
Theorem setState_keeps_window (state : GHOST_TWindowState) (s : World H) :
  let run := setState state s in
  obj (final run) = obj s
  /\ result (getState (final run)) = result (getState s)
  /\ (List.length (log_of run) <= 1)%nat
  /\ List.length (decor_commands (log_of run)) = List.length (log_of run)
  /\ result run
     = match state with
       | GHOST_kWindowStateEmbedded => GHOST_kFailure
       | _ => GHOST_kSuccess
       end.
Proof.
  cbv zeta.
  destruct (is_fullscreen (w (obj s))) eqn:Hfull,
           (is_maximised (w (obj s))) eqn:Hmax, state;
    unfold setState, getState, bind, get_w, ret, call, result, final,
      log_of; cbn; repeat (progress (rewrite ?Hfull, ?Hmax; cbn));
    try match goal with
        | |- context [respond ?c (host s)] =>
            destruct (respond c (host s)) as [[] h]; cbn
        end;
    repeat (progress (rewrite ?Hfull, ?Hmax; cbn));
    repeat split; lia.
Qed.

(** X16.  [getTitle] never answers the empty string. *)
Theorem getTitle_never_empty (s : World H) :
  String.eqb (result (getTitle s)) EmptyString = false.
Proof.
  unfold getTitle, bind, get_obj, ret, result; cbn.
  destruct (String.eqb (title (obj s)) EmptyString) eqn:E;
    [reflexivity | exact E].
Qed.

(** X17.  [setTitle] followed by [getTitle]: the title comes back as it
    was set, except the empty title, for which [getTitle] answers
    "untitled"; libdecor is given the title as set, empty or not, once
    as application id and once as title of the frame of the window, and
    the [window_t] is left alone. *)
Theorem setTitle_getTitle (t : string) (s : World H) :
  let run := setTitle t s in
  result (getTitle (final run))
  = (if String.eqb t EmptyString then "untitled"%string else t)
  /\ app_ids_set (log_of run) = [(frame (w (obj s)), t)]
  /\ titles_set (log_of run) = [(frame (w (obj s)), t)]
  /\ w (obj (final run)) = w (obj s).
Proof.
  cbv zeta. unfold setTitle, bind, get_w, call, put_title; cbn.
  destruct (respond (libdecor_frame_set_app_id (frame (w (obj s))) t)
                    (host s)) as [[] h1]; cbn.
  destruct (respond (libdecor_frame_set_title (frame (w (obj s))) t) h1)
    as [[] h2]; cbn.
  repeat split.
Qed.


(** X19.  Pushing events is all the event methods do to the window:
    [close], [activate], [deactivate] and [notify_size] leave the window
    object as it was; in particular [activate] and [deactivate] do not
    touch the [is_active] flag, which only a configuration sets. *)
Theorem event_methods_keep_window (s : World H) :
  obj (final (close s)) = obj s
  /\ obj (final (activate s)) = obj s
  /\ obj (final (deactivate s)) = obj s
  /\ obj (final (notify_size build s)) = obj s.
Proof.
  destruct (close_run s) as (t1 & r1 & h1 & E1).
  destruct (activate_run s) as (a2 & t2 & r2 & h2 & E2).
  destruct (deactivate_run s) as (t3 & r3 & h3 & E3).
  destruct (notify_size_run build s) as (g4 & t4 & r4 & h4 & E4).
  rewrite E1, E2, E3, E4. repeat split.
Qed.

End HostDriven.

(* ------------------------------------------------------------------ *)
(** * Further runs on the scripted host *)

(** X4 on a run: a maximized configuration, then an active fullscreen
    one, then a commit and a close. *)
Lemma state_follows_last_configuration_witness :
  result
    (getState
       (final
          (dispatch plain_build
             ([NotifyConfigure (mkConfiguration (Some (1024, 768)) (Some 2))]
              ++ NotifyConfigure (mkConfiguration None (Some 5))
                 :: [NotifyCommit; NotifyClose])
             (sample_world [1%N] false false false))))
  = GHOST_kWindowStateFullScreen.
Proof.
  exact (proj2 (proj2 (proj2
           (state_follows_last_configuration plain_build
              [NotifyConfigure (mkConfiguration (Some (1024, 768)) (Some 2))]
              [NotifyCommit; NotifyClose]
              (mkConfiguration None (Some 5))
              (sample_world [1%N] false false false) eq_refl)))).
Defined.

(** X5 on a run: a commit and a close. *)
Lemma close_and_commit_keep_window_witness :
  obj (final (dispatch plain_build [NotifyCommit; NotifyClose]
                       (sample_world [1%N] true false true)))
  = obj (sample_world [1%N] true false true).
Proof.
  exact (close_and_commit_keep_window plain_build
           [NotifyCommit; NotifyClose]
           (sample_world [1%N] true false true) eq_refl).
Defined.

(** X6 on a run: a configuration with 1024x768, then one without size
    and a commit. *)
Lemma bounds_follow_last_sized_configuration_witness :
  result
    (getClientBounds
       (final
          (dispatch plain_build
             ([] ++ NotifyConfigure (mkConfiguration (Some (1024, 768)) None)
                 :: [NotifyConfigure (mkConfiguration None (Some 1));
                     NotifyCommit])
             (sample_world [1%N] false false false))))
  = mkRect 0 0 1024 768.
Proof.
  exact (proj1
           (bounds_follow_last_sized_configuration plain_build []
              [NotifyConfigure (mkConfiguration None (Some 1)); NotifyCommit]
              (mkConfiguration (Some (1024, 768)) None) 1024 768
              (sample_world [1%N] false false false) eq_refl eq_refl)).
Defined.

(** X12 on a run: 800x600, and a first round trip with a configuration
    without size and a commit. *)
Lemma constructed_window_reports_requested_size_witness :
  result
    (getClientBounds
       (final
          (GHOST_WindowWayland_new plain_build 1%N blank_window_t
             "Blender" 0 0 800 600 GHOST_kWindowStateNormal None
             GHOST_kDrawingContextTypeOpenGL false false false
             (host_with_inbox []
                [NotifyConfigure (mkConfiguration None None);
                 NotifyCommit]))))
  = mkRect 0 0 800 600.
Proof.
  apply (constructed_window_reports_requested_size plain_build 1%N
           blank_window_t "Blender"%string 0 0 800 600
           GHOST_kWindowStateNormal None GHOST_kDrawingContextTypeOpenGL
           false false false
           (host_with_inbox []
              [NotifyConfigure (mkConfiguration None None); NotifyCommit]));
    [lia | lia | reflexivity].
Defined.

(** X13 on a run: the width 4294967295 comes back as -1. *)
Lemma constructed_window_wraps_large_width_witness :
  m_r (result
         (getClientBounds
            (final
               (GHOST_WindowWayland_new plain_build 1%N blank_window_t
                  "Blender" 0 0 4294967295 600 GHOST_kWindowStateNormal None
                  GHOST_kDrawingContextTypeOpenGL false false false
                  (quiet_host [])))))
  = 4294967295 - 2 ^ 32.
Proof.
  apply (constructed_window_wraps_large_width plain_build 1%N
           blank_window_t "Blender"%string 0 0 4294967295 600
           GHOST_kWindowStateNormal None GHOST_kDrawingContextTypeOpenGL
           false false false (quiet_host []));
    [lia | reflexivity].
Defined.

(** X14 on a run: the window is constructed with 800x600, and the first
    round trip brings a configuration with 1920x1080. *)
Lemma constructed_window_adopts_delivered_size_witness :
  result
    (getClientBounds
       (final
          (GHOST_WindowWayland_new plain_build 1%N blank_window_t
             "Blender" 0 0 800 600 GHOST_kWindowStateNormal None
             GHOST_kDrawingContextTypeOpenGL false false false
             (host_with_inbox []
                [NotifyConfigure
                   (mkConfiguration (Some (1920, 1080)) (Some 1));
                 NotifyCommit]))))
  = mkRect 0 0 1920 1080.
Proof.
  exact (constructed_window_adopts_delivered_size plain_build 1%N
           blank_window_t "Blender"%string 0 0 800 600
           GHOST_kWindowStateNormal None GHOST_kDrawingContextTypeOpenGL
           false false false
           (host_with_inbox []
              [NotifyConfigure (mkConfiguration (Some (1920, 1080)) (Some 1));
               NotifyCommit])
           [] [NotifyCommit]
           (mkConfiguration (Some (1920, 1080)) (Some 1)) 1920 1080
           eq_refl eq_refl eq_refl).
Defined.


(** The events of a sequence on the scripted host, for a window the
    window manager knows: size and activation for the active
    configuration, size and deactivation for the one without state,
    nothing for the commit, one close event. *)
Example dispatch_events_on_a_run :
  map ev_type
    (pushed_events
       (log_of
          (dispatch plain_build
             [NotifyConfigure (mkConfiguration None (Some 1));
              NotifyCommit;
              NotifyConfigure (mkConfiguration (Some (640, 480)) None);
              NotifyClose]
             (sample_world [1%N] false false false))))
  = [GHOST_kEventWindowSize; GHOST_kEventWindowActivate;
     GHOST_kEventWindowSize; GHOST_kEventWindowDeactivate;
     GHOST_kEventWindowClose].
Proof. reflexivity. Qed.
